(** * The Live API relay of [python_live_api.py]

    A shallow embedding of the two classes of the program:
    [SecurityCameraLiveAPI] (the upstream session shim) and
    [WebSocketServer.handle_client] (the per-connection dispatcher).

    The program is a sequence of awaited calls on two outside parties, the
    upstream Live API and the client websocket.  Both are modelled by what
    they answer: every operation takes the answers of the outside world
    during that call as an argument ([Env]), mutates the attributes of the
    [SecurityCameraLiveAPI] object ([Sys]) and emits the calls it makes on
    the outside world as a list of [Event]s.  Python exceptions are values of
    the result type [Res], so "raises" and "returns" are different results.

    Not modelled: the logger calls, the float representation of the clock,
    and [BaseException]s that are not [Exception]s (cancellation). *)

From Stdlib Require Import ZArith NArith Ascii String.
From Stdlib.Strings Require Import Byte.
From stdpp Require Import base option list gmap sets strings pretty.

Open Scope string_scope.
Open Scope list_scope.

(** ** Python values *)

Abbreviation bytes := (list byte).

(** The value [json.loads] builds and [json.dumps] consumes.  An object is
    kept as the list of its items in insertion order, which is the order
    [json.dumps] writes them in; numbers are kept as integers because no
    arithmetic is done on them. *)
#[warnings="-register-all"]
Inductive JValue :=
| JNull
| JBool (b : bool)
| JNum (n : Z)
| JStr (s : string)
| JArr (l : list JValue)
| JObj (items : list (string * JValue)).

Abbreviation Dict := (list (string * JValue)).

(** [d.get(k)]: the first item with key [k]. *)
Fixpoint dict_get (k : string) (d : Dict) : option JValue :=
  match d with
  | [] => None
  | (k', v) :: d' => if String.eqb k k' then Some v else dict_get k d'
  end.

(** [v == s] for a string literal [s]. *)
Definition py_eq_str (v : JValue) (s : string) : bool :=
  match v with
  | JStr t => String.eqb t s
  | _ => false
  end.

(** Name of the Python type of a JSON value, as error messages print it. *)
Definition type_name (v : JValue) : string :=
  match v with
  | JNull => "NoneType"
  | JBool _ => "bool"
  | JNum _ => "int"
  | JStr _ => "str"
  | JArr _ => "list"
  | JObj _ => "dict"
  end.

(** ** Exceptions *)

Inductive ExnClass :=
| ConnectionClosed
| JSONDecodeError
| KeyError
| TypeError
| ValueError
| AttributeError
| BinasciiError
| ValidationError
| OtherException (name : string).

(** An instance of [Exception]; [str] is the text [str(e)] gives. *)
Record Exn := mkExn { exn_class : ExnClass; str : string }.

Inductive Res (A : Type) :=
| Ret (a : A)
| Raise (e : Exn).
Arguments Ret {A} a.
Arguments Raise {A} e.

(** Truth value of an optional attribute: [None] and the empty value of the
    type are false. *)
Definition truthy_str (o : option string) : bool :=
  match o with
  | Some (String _ _) => true
  | _ => false
  end.

Definition truthy_bytes (o : option bytes) : bool :=
  match o with
  | Some (_ :: _) => true
  | _ => false
  end.

Definition truthy_bool (o : option bool) : bool :=
  match o with
  | Some b => b
  | None => false
  end.

(** ** [base64] *)

Module Base64.

Definition alphabet : string :=
  "ABCDEFGHIJKLMNOPQRSTUVWXYZabcdefghijklmnopqrstuvwxyz0123456789+/".

Definition digit (n : N) : ascii :=
  default "A"%char (String.get (N.to_nat n) alphabet).

Fixpoint index_from (c : ascii) (s : string) (i : N) : option N :=
  match s with
  | EmptyString => None
  | String d s' => if Ascii.eqb c d then Some i else index_from c s' (N.succ i)
  end.

Definition value (c : ascii) : option N := index_from c alphabet 0%N.

Definition byte_of_N (n : N) : byte := byte_of_ascii (ascii_of_N n).

(** [base64.b64encode(bs).decode()] *)
Fixpoint b64encode (bs : bytes) : string :=
  match bs with
  | [] => ""
  | [a] =>
      let x := Byte.to_N a in
      String (digit (N.shiftr x 2))
        (String (digit (N.shiftl (N.land x 3) 4)) "==")
  | [a; b] =>
      let x := Byte.to_N a in
      let y := Byte.to_N b in
      String (digit (N.shiftr x 2))
        (String (digit (N.lor (N.shiftl (N.land x 3) 4) (N.shiftr y 4)))
           (String (digit (N.shiftl (N.land y 15) 2)) "="))
  | a :: b :: c :: rest =>
      let x := Byte.to_N a in
      let y := Byte.to_N b in
      let z := Byte.to_N c in
      String (digit (N.shiftr x 2))
        (String (digit (N.lor (N.shiftl (N.land x 3) 4) (N.shiftr y 4)))
           (String (digit (N.lor (N.shiftl (N.land y 15) 2) (N.shiftr z 6)))
              (String (digit (N.land z 63)) (b64encode rest))))
  end.

Global Arguments b64encode : simpl never.

(** The decoder state of [binascii.a2b_base64]: position in the current
    quad, the bits left over from the previous character, the pad
    characters seen in a row, and the bytes written so far (newest first). *)
Record Decoder := mkDecoder {
  quad_pos : N;
  leftchar : N;
  pads : N;
  written : bytes
}.

Definition initial : Decoder :=
  {| quad_pos := 0; leftchar := 0; pads := 0; written := [] |}.

(** One alphabet character of value [v]. *)
Definition feed (v : N) (d : Decoder) : Decoder :=
  match quad_pos d with
  | 0%N => {| quad_pos := 1; leftchar := v; pads := 0; written := written d |}
  | 1%N => {| quad_pos := 2; leftchar := N.land v 15; pads := 0;
              written := byte_of_N (N.lor (N.shiftl (leftchar d) 2) (N.shiftr v 4))
                           :: written d |}
  | 2%N => {| quad_pos := 3; leftchar := N.land v 3; pads := 0;
              written := byte_of_N (N.lor (N.shiftl (leftchar d) 4) (N.shiftr v 2))
                           :: written d |}
  | _ => {| quad_pos := 0; leftchar := 0; pads := 0;
            written := byte_of_N (N.lor (N.shiftl (leftchar d) 6) v) :: written d |}
  end.

(** The scan of the default (not strict) mode: characters outside the
    alphabet are skipped, and a pad sequence that completes a quad ends
    the scan, whatever follows it. *)
Fixpoint scan (s : string) (d : Decoder) : Res bytes :=
  match s with
  | EmptyString =>
      if N.eqb (quad_pos d) 0 then Ret (rev (written d))
      else if N.eqb (quad_pos d) 1 then
        Raise (mkExn BinasciiError
                 ("Invalid base64-encoded string: number of data characters ("
                  +:+ pretty (N.of_nat (length (written d)) / 3 * 4 + 1)%N
                  +:+ ") cannot be 1 more than a multiple of 4"))
      else Raise (mkExn BinasciiError "Incorrect padding")
  | String c s' =>
      if Ascii.eqb c "="%char then
        if N.leb 2 (quad_pos d) then
          if N.leb 4 (quad_pos d + (pads d + 1)) then Ret (rev (written d))
          else scan s' {| quad_pos := quad_pos d; leftchar := leftchar d;
                          pads := pads d + 1; written := written d |}
        else scan s' d
      else
        match value c with
        | Some v => scan s' (feed v d)
        | None => scan s' d
        end
  end.

Definition is_ascii (s : string) : bool :=
  forallb (λ c, N.ltb (N_of_ascii c) 128) (list_ascii_of_string s).

(** [base64.b64decode(v)] on a value that came out of [json.loads]. *)
Definition b64decode (v : JValue) : Res bytes :=
  match v with
  | JStr s =>
      if is_ascii s then scan s initial
      else Raise (mkExn ValueError "string argument should contain only ASCII characters")
  | _ =>
      Raise (mkExn TypeError
               ("argument should be a bytes-like object or ASCII string, not '"
                +:+ type_name v +:+ "'"))
  end.

Global Arguments b64decode : simpl never.

End Base64.

(** ** The outside world *)

Abbreviation Handle := nat.
Abbreviation Conn := nat.

(** A message of the upstream stream ([LiveServerMessage]) with the
    attributes the program reads.  Every attribute is optional in the
    library, the list of parts of a [Content] included. *)
Record Part := mkPart { text : option string }.
Record Content := mkContent { parts : option (list Part) }.
Record ServerContent := mkServerContent {
  model_turn : option Content;
  turn_complete : option bool
}.
Record LiveServerMessage := mkMessage {
  data : option bytes;
  server_content : option ServerContent
}.

(** [types.Blob] *)
Record Blob := mkBlob { blob_data : bytes; blob_mime_type : option string }.

(** The keyword [send_realtime_input] is called with. *)
Inductive Media :=
| Image (b : Blob)
| Audio (b : Blob).

(** The calls the program makes on the upstream service and on the client
    websocket, in the order it makes them. *)
Inductive Event :=
| EConnect (model : string) (config : Dict)
| ESend (h : Handle) (m : Media)
| ERecv (h : Handle) (r : LiveServerMessage)
| EClose (h : Handle)
| EWsSend (c : Conn) (payload : Dict).

(** One step of an asynchronous iterator: the next item, or an exception.
    The end of the list is the end of the iteration. *)
Inductive Step (A : Type) :=
| Yield (a : A)
| Fail (e : Exn).
Arguments Yield {A} a.
Arguments Fail {A} e.

(** What the outside world answers while one inbound message is handled:
    whether [connect] and [send_realtime_input] raise, what [receive()]
    yields, what the event loop clock reads, whether [websocket.send]
    raises, and the text the validation of a [types.Blob] prints for a
    [mime_type] it rejects (it depends on the version of the library).
    [session.close()] is taken to complete. *)
Record Env := mkEnv {
  connect_result : option Exn;
  send_result : option Exn;
  replies : list (Step LiveServerMessage);
  now : Z;
  ws_send_result : option Exn;
  validation_text : JValue → string
}.

(** The attributes of [SecurityCameraLiveAPI] that change, and the next
    session object the upstream library will hand out. *)
Record Sys := mkSys {
  session : option Handle;
  connected_clients : gset Conn;
  next_handle : Handle
}.

(** ** Computations: state, exceptions and emitted calls *)

Definition M (A : Type) : Type := Sys → Res A * Sys * list Event.

#[global] Instance M_ret : MRet M := λ A a s, (Ret a, s, []).

#[global] Instance M_bind : MBind M := λ A B f m s,
  match m s with
  | (Ret a, s1, t1) => let '(r, s2, t2) := f a s1 in (r, s2, t1 ++ t2)
  | (Raise e, s1, t1) => (Raise e, s1, t1)
  end.

Definition raise {A} (e : Exn) : M A := λ s, (Raise e, s, []).

Definition lift {A} (r : Res A) : M A := λ s, (r, s, []).

Definition emit (ev : Event) : M unit := λ s, (Ret tt, s, [ev]).

(** [try: body except Exception as e: handler e] *)
Definition try_except {A} (body : M A) (handler : Exn → M A) : M A := λ s,
  match body s with
  | (Ret a, s1, t1) => (Ret a, s1, t1)
  | (Raise e, s1, t1) => let '(r, s2, t2) := handler e s1 in (r, s2, t1 ++ t2)
  end.

(** [try: body finally: final] *)
Definition try_finally {A} (body : M A) (final : M unit) : M A := λ s,
  let '(r, s1, t1) := body s in
  match final s1 with
  | (Ret _, s2, t2) => (r, s2, t1 ++ t2)
  | (Raise e, s2, t2) => (Raise e, s2, t1 ++ t2)
  end.

Definition result {A} (o : Res A * Sys * list Event) : Res A := o.1.1.
Definition post {A} (o : Res A * Sys * list Event) : Sys := o.1.2.
Definition events {A} (o : Res A * Sys * list Event) : list Event := o.2.

Definition get_session : M (option Handle) := λ s, (Ret (session s), s, []).

Definition set_session (o : option Handle) : M unit := λ s,
  (Ret tt, {| session := o; connected_clients := connected_clients s;
              next_handle := next_handle s |}, []).

(** [self.session.<name>]: the attribute lookup fails on [None]. *)
Definition session_attr (name : string) : M Handle := λ s,
  match session s with
  | Some h => (Ret h, s, [])
  | None =>
      (Raise (mkExn AttributeError
                ("'NoneType' object has no attribute '" +:+ name +:+ "'")), s, [])
  end.

(** ** The upstream library and the client websocket *)

(** [await self.client.aio.live.connect(model=..., config=...)]: a new
    session object on success. *)
Definition live_connect (u : Env) (model : string) (config : Dict) : M Handle :=
  emit (EConnect model config);;
  match connect_result u with
  | Some e => raise e
  | None => λ s,
      (Ret (next_handle s),
       {| session := session s; connected_clients := connected_clients s;
          next_handle := S (next_handle s) |}, [])
  end.

(** [types.Blob(data=..., mime_type=...)]: the model validates its fields;
    [mime_type] is an optional string, and any other value raises the
    validation error, with the text the library prints for that value. *)
Definition Blob_new (u : Env) (bs : bytes) (mime_type : JValue) : Res Blob :=
  match mime_type with
  | JStr s => Ret (mkBlob bs (Some s))
  | JNull => Ret (mkBlob bs None)
  | _ => Raise (mkExn ValidationError (validation_text u mime_type))
  end.

(** [await session.send_realtime_input(...)] *)
Definition send_realtime_input (u : Env) (h : Handle) (m : Media) : M unit :=
  emit (ESend h m);;
  match send_result u with
  | Some e => raise e
  | None => mret tt
  end.

(** [await session.close()] *)
Definition session_close (h : Handle) : M unit := emit (EClose h).

(** [asyncio.get_event_loop().time()] *)
Definition loop_time (u : Env) : M Z := mret (now u).

(** [await websocket.send(json.dumps(payload))] *)
Definition ws_send (u : Env) (websocket : Conn) (payload : Dict) : M unit :=
  emit (EWsSend websocket payload);;
  match ws_send_result u with
  | Some e => raise e
  | None => mret tt
  end.

(** ** [SecurityCameraLiveAPI] *)

Definition model : string := "gemini-live-2.5-flash-preview".

Definition config : Dict :=
  [("response_modalities", JArr [JStr "TEXT"; JStr "AUDIO"]);
   ("system_instruction", JStr "You are a security camera AI assistant. 
            Analyze video frames and audio for potential security threats.
            Assess risk levels as SAFE, WARNING, or DANGER.
            Provide detailed descriptions of what you observe.
            Look for suspicious activities, unauthorized access, or safety hazards.")].

(** The state [__init__] leaves: no session, no client. *)
Definition init : Sys :=
  {| session := None; connected_clients := ∅; next_handle := 0 |}.

Definition start_live_session (u : Env) : M bool :=
  try_except
    (h ← live_connect u model config;
     set_session (Some h);;
     mret true)
    (λ _, mret false).

(** [for part in parts: if part.text: response_text += part.text] *)
Definition add_parts (ps : list Part) (response_text : string) : string :=
  fold_left
    (λ acc p, if truthy_str (text p) then acc +:+ default "" (text p) else acc)
    ps response_text.

(** The text of one response: only when [server_content] and its
    [model_turn] are there.  The [for] statement iterates [parts] as it is,
    and raises on [None]. *)
Definition add_response (r : LiveServerMessage) (response_text : string) : Res string :=
  match server_content r with
  | Some sc =>
      match model_turn sc with
      | Some turn =>
          match parts turn with
          | Some ps => Ret (add_parts ps response_text)
          | None => Raise (mkExn TypeError "'NoneType' object is not iterable")
          end
      | None => Ret response_text
      end
  | None => Ret response_text
  end.

(** [response.server_content and response.server_content.turn_complete] *)
Definition is_turn_complete (r : LiveServerMessage) : bool :=
  match server_content r with
  | Some sc => truthy_bool (turn_complete sc)
  | None => false
  end.

(** The [async for] of [process_video_frame]. *)
Fixpoint receive_video (h : Handle) (stream : list (Step LiveServerMessage))
    (response_text : string) : M string :=
  match stream with
  | [] => mret response_text
  | Fail e :: _ => raise e
  | Yield r :: rest =>
      emit (ERecv h r);;
      response_text ← lift (add_response r response_text);
      if is_turn_complete r then mret response_text
      else receive_video h rest response_text
  end.

(** The dictionary of the [except] branch of both media operations. *)
Definition error_result (u : Env) (e : Exn) : M Dict :=
  t ← loop_time u;
  mret [("type", JStr "error"); ("content", JStr (str e)); ("timestamp", JNum t)].

Definition process_video_frame (u : Env) (frame_data : JValue) : M Dict :=
  s ← get_session;
  (if s is None then start_live_session u;; mret tt else mret tt);;
  try_except
    (h ← session_attr "send_realtime_input";
     bs ← lift (Base64.b64decode frame_data);
     blob ← lift (Blob_new u bs (JStr "image/jpeg"));
     send_realtime_input u h (Image blob);;
     h' ← session_attr "receive";
     response_text ← receive_video h' (replies u) "";
     t ← loop_time u;
     mret [("type", JStr "analysis");
           ("content", JStr response_text);
           ("timestamp", JNum t)])
    (error_result u).

(** [if response.data: audio_response = b64encode(response.data).decode()] *)
Definition capture_audio (r : LiveServerMessage) (audio_response : option string)
    : option string :=
  if truthy_bytes (data r) then Some (Base64.b64encode (default [] (data r)))
  else audio_response.

(** The [async for] of [process_audio_chunk]. *)
Fixpoint receive_audio (h : Handle) (stream : list (Step LiveServerMessage))
    (response_text : string) (audio_response : option string)
    : M (string * option string) :=
  match stream with
  | [] => mret (response_text, audio_response)
  | Fail e :: _ => raise e
  | Yield r :: rest =>
      emit (ERecv h r);;
      let audio_response := capture_audio r audio_response in
      response_text ← lift (add_response r response_text);
      if is_turn_complete r then mret (response_text, audio_response)
      else receive_audio h rest response_text audio_response
  end.

(** A Python [Optional[str]] as a JSON value. *)
Definition of_optional_str (o : option string) : JValue :=
  match o with
  | Some s => JStr s
  | None => JNull
  end.

Definition process_audio_chunk (u : Env) (audio_data : JValue) (mime_type : JValue)
    : M Dict :=
  s ← get_session;
  (if s is None then start_live_session u;; mret tt else mret tt);;
  try_except
    (h ← session_attr "send_realtime_input";
     bs ← lift (Base64.b64decode audio_data);
     blob ← lift (Blob_new u bs mime_type);
     send_realtime_input u h (Audio blob);;
     h' ← session_attr "receive";
     '(response_text, audio_response) ← receive_audio h' (replies u) "" None;
     t ← loop_time u;
     mret [("type", JStr "audio_analysis");
           ("content", JStr response_text);
           ("audio_response", of_optional_str audio_response);
           ("timestamp", JNum t)])
    (error_result u).

Definition close_session : M unit :=
  s ← get_session;
  match s with
  | Some h => session_close h;; set_session None
  | None => mret tt
  end.

(** ** [WebSocketServer] *)

(** An inbound websocket message, by what [json.loads] makes of it: the
    text of the decoding error, or the decoded value. *)
Inductive Message :=
| NotJSON (error : string)
| JSON (v : JValue).

Definition json_loads (message : Message) : Res JValue :=
  match message with
  | NotJSON error => Raise (mkExn JSONDecodeError error)
  | JSON v => Ret v
  end.

(** [v[k]] for a string key [k]. *)
Definition getitem (v : JValue) (k : string) : Res JValue :=
  match v with
  | JObj d =>
      match dict_get k d with
      | Some x => Ret x
      | None => Raise (mkExn KeyError ("'" +:+ k +:+ "'"))
      end
  | JArr _ => Raise (mkExn TypeError "list indices must be integers or slices, not str")
  | JStr _ => Raise (mkExn TypeError "string indices must be integers, not 'str'")
  | _ => Raise (mkExn TypeError ("'" +:+ type_name v +:+ "' object is not subscriptable"))
  end.

(** [v.get(k, dflt)] *)
Definition get_default (v : JValue) (k : string) (dflt : JValue) : Res JValue :=
  match v with
  | JObj d => Ret (default dflt (dict_get k d))
  | _ => Raise (mkExn AttributeError
                  ("'" +:+ type_name v +:+ "' object has no attribute 'get'"))
  end.

Definition session_status (status : string) : Dict :=
  [("type", JStr "session_status"); ("status", JStr status)].

(** The body of the [async for] of [handle_client].  The source evaluates
    [data["type"]] again in every [elif]; it is evaluated once here. *)
Definition handle_message (websocket : Conn) (u : Env) (message : Message) : M unit :=
  data ← lift (json_loads message);
  type ← lift (getitem data "type");
  if py_eq_str type "video_frame" then
    frame_data ← lift (getitem data "data");
    result ← process_video_frame u frame_data;
    ws_send u websocket result
  else if py_eq_str type "audio_chunk" then
    audio_data ← lift (getitem data "data");
    mime_type ← lift (get_default data "mime_type" (JStr "audio/webm"));
    result ← process_audio_chunk u audio_data mime_type;
    ws_send u websocket result
  else if py_eq_str type "start_session" then
    success ← start_live_session u;
    ws_send u websocket (session_status (if success : bool then "connected" else "error"))
  else if py_eq_str type "stop_session" then
    close_session;;
    ws_send u websocket (session_status "disconnected")
  else mret tt.

(** The inbound side of the websocket: each message comes with what the
    outside world does while it is handled. *)
Abbreviation Inbox := (list (Step (Message * Env))).

(** [async for message in websocket: ...] *)
Fixpoint receive_loop (websocket : Conn) (inbox : Inbox) : M unit :=
  match inbox with
  | [] => mret tt
  | Fail e :: _ => raise e
  | Yield (message, u) :: rest =>
      handle_message websocket u message;;
      receive_loop websocket rest
  end.

Definition add_client (websocket : Conn) : M unit := λ s,
  (Ret tt, {| session := session s;
              connected_clients := {[websocket]} ∪ connected_clients s;
              next_handle := next_handle s |}, []).

Definition discard_client (websocket : Conn) : M unit := λ s,
  (Ret tt, {| session := session s;
              connected_clients := connected_clients s ∖ {[websocket]};
              next_handle := next_handle s |}, []).

(** Both handlers only log, so both leave the state as it is. *)
Definition handle_client (websocket : Conn) (path : string) (inbox : Inbox) : M unit :=
  add_client websocket;;
  try_finally
    (try_except (receive_loop websocket inbox)
       (λ e, match exn_class e with
             | ConnectionClosed => mret tt
             | _ => mret tt
             end))
    (discard_client websocket).

(** ** Observations on a run *)

(** The responses a drain reads from what the stream yields: all of them up
    to and including the first one marked turn-complete. *)
Fixpoint first_turn (rs : list LiveServerMessage) : list LiveServerMessage :=
  match rs with
  | [] => []
  | r :: rest => if is_turn_complete r then [r] else r :: first_turn rest
  end.

(** The text parts of a response, in order. *)
Definition text_parts (r : LiveServerMessage) : list string :=
  match server_content r with
  | Some sc =>
      match model_turn sc with
      | Some turn => omap text (default [] (parts turn))
      | None => []
      end
  | None => []
  end.

(** The responses whose parts can be iterated: those without a
    [model_turn], and those whose [model_turn] has a list of parts. *)
Definition iterable (r : LiveServerMessage) : bool :=
  match server_content r with
  | Some sc =>
      match model_turn sc with
      | Some turn => if parts turn is Some _ then true else false
      | None => true
      end
  | None => true
  end.

(** Concatenation of strings, in order. *)
Definition join (ls : list string) : string := foldr String.append "" ls.

(** The raw binary payload a response carries, if any. *)
Definition payload (r : LiveServerMessage) : option bytes :=
  if truthy_bytes (data r) then data r else None.

(** The value of [audio_response] after the drain has read [rs], starting
    from [audio_response]: the encoding of the last payload, if there is one. *)
Definition audio_after (audio_response : option string) (rs : list LiveServerMessage)
    : option string :=
  match last (omap payload rs) with
  | Some bs => Some (Base64.b64encode bs)
  | None => audio_response
  end.

(** The responses read from the upstream stream during a run. *)
Definition received (evs : list Event) : list LiveServerMessage :=
  omap (λ ev, if ev is ERecv _ r then Some r else None) evs.

(** The payloads sent upstream during a run. *)
Definition sent (evs : list Event) : list (Handle * Media) :=
  omap (λ ev, if ev is ESend h m then Some (h, m) else None) evs.

(** The envelopes written to client websockets during a run. *)
Definition ws_sent (evs : list Event) : list (Conn * Dict) :=
  omap (λ ev, if ev is EWsSend c d then Some (c, d) else None) evs.

(** The dictionaries the media operations return. *)
Definition error_dict (e : Exn) (t : Z) : Dict :=
  [("type", JStr "error"); ("content", JStr (str e)); ("timestamp", JNum t)].

Definition analysis_dict (response_text : string) (t : Z) : Dict :=
  [("type", JStr "analysis"); ("content", JStr response_text); ("timestamp", JNum t)].

Definition audio_analysis_dict (reply : string * option string) (t : Z) : Dict :=
  [("type", JStr "audio_analysis"); ("content", JStr reply.1);
   ("audio_response", of_optional_str reply.2); ("timestamp", JNum t)].

(** The exception of reading an attribute of a session that is [None]. *)
Definition no_session (name : string) : Exn :=
  mkExn AttributeError ("'NoneType' object has no attribute '" +:+ name +:+ "'").

(** The state [start_live_session] leaves when [connect] succeeds. *)
Definition started (s : Sys) : Sys :=
  {| session := Some (next_handle s);
     connected_clients := connected_clients s;
     next_handle := S (next_handle s) |}.

(** ** Sample values *)

(** A response with one text part. *)
Definition text_response (t : string) (complete : bool) : LiveServerMessage :=
  mkMessage None
    (Some (mkServerContent (Some (mkContent (Some [mkPart (Some t)]))) (Some complete))).

(** A response with a raw payload and no content. *)
Definition data_response (bs : bytes) : LiveServerMessage :=
  mkMessage (Some bs) None.

(** A response whose [model_turn] has no list of parts. *)
Definition bare_response (complete : bool) : LiveServerMessage :=
  mkMessage None (Some (mkServerContent (Some (mkContent None)) (Some complete))).

(** The exception of iterating the parts of such a response. *)
Definition not_iterable : Exn := mkExn TypeError "'NoneType' object is not iterable".

Definition reset : Exn := mkExn ConnectionClosed "no close frame received or sent".

Definition unreachable : Exn := mkExn (OtherException "OSError") "Network is unreachable".

(** The upstream answers [stream] to a payload; every call succeeds. *)
Definition answering (stream : list (Step LiveServerMessage)) : Env :=
  {| connect_result := None; send_result := None; replies := stream;
     now := 1000; ws_send_result := None;
     validation_text := λ _, "1 validation error for Blob" |}.

(** The upstream refuses the payload. *)
Definition refusing : Env :=
  {| connect_result := None; send_result := Some reset; replies := [];
     now := 1000; ws_send_result := None;
     validation_text := λ _, "1 validation error for Blob" |}.

(** The upstream cannot be reached. *)
Definition offline : Env :=
  {| connect_result := Some unreachable; send_result := None; replies := [];
     now := 1000; ws_send_result := None;
     validation_text := λ _, "1 validation error for Blob" |}.

(** A state with session [h] stored. *)
Definition active (h : Handle) : Sys :=
  {| session := Some h; connected_clients := ∅; next_handle := S h |}.

(** ** Further observations *)

(** The sessions closed upstream during a run. *)
Definition closed (evs : list Event) : list Handle :=
  omap (λ ev, if ev is EClose h then Some h else None) evs.

(** The number of [connect] calls of a run. *)
Definition connects (evs : list Event) : nat :=
  length (omap (λ ev, if ev is EConnect _ _ then Some tt else None) evs).

(** The "type" of an inbound message, when it decodes and has one. *)
Definition message_type (message : Message) : option JValue :=
  match json_loads message with
  | Ret data =>
      match getitem data "type" with
      | Ret type => Some type
      | Raise _ => None
      end
  | Raise _ => None
  end.

(** The messages the dispatcher takes to its [stop_session] branch. *)
Definition is_stop_session (message : Message) : bool :=
  match message_type message with
  | Some type => py_eq_str type "stop_session"
  | None => false
  end.

(** The session the [try] block of a media operation finds, with the state
    it runs in: the stored session, or the one the implicit
    [start_live_session] stored; none when that start failed. *)
Definition entry (u : Env) (s : Sys) : option (Handle * Sys) :=
  match session s with
  | Some h => Some (h, s)
  | None =>
      match connect_result u with
      | None => Some (next_handle s, started s)
      | Some _ => None
      end
  end.

(** The messages the dispatcher takes to its [start_session] branch. *)
Definition is_start_session (message : Message) : bool :=
  match message_type message with
  | Some type => py_eq_str type "start_session"
  | None => false
  end.

(** * Properties *)

Ltac unfold_monad :=
  unfold try_except, try_finally, error_result, loop_time, session_attr,
    get_session, set_session, emit, raise, lift, mbind, M_bind, mret, M_ret in *.

Ltac unfold_upstream :=
  unfold live_connect, send_realtime_input, session_close, ws_send in *.

Ltac run := unfold_upstream; unfold_monad; simpl in *.

(** The codec on the answers of the Python library. *)

Example b64encode_A : Base64.b64encode ["A"%byte] = "QQ==".
Proof. reflexivity. Qed.

Example b64encode_AB : Base64.b64encode ["A"%byte; "B"%byte] = "QUI=".
Proof. reflexivity. Qed.

Example b64encode_high :
  Base64.b64encode [xff; xfe; xfd; x00]%byte = "//79AA==".
Proof. reflexivity. Qed.

Example b64decode_ABCD :
  Base64.b64decode (JStr "QUJDRA==") = Ret ["A"; "B"; "C"; "D"]%byte.
Proof. reflexivity. Qed.

Example b64decode_skips : Base64.b64decode (JStr "QU JD") = Ret ["A"; "B"; "C"]%byte.
Proof. reflexivity. Qed.

Example b64decode_stops_at_pad :
  Base64.b64decode (JStr "QUI=QUJD") = Ret ["A"; "B"]%byte.
Proof. reflexivity. Qed.

Example b64decode_stray_pad :
  Base64.b64decode (JStr "QQ=x=") = Ret ["A"%byte; x0c%byte].
Proof. reflexivity. Qed.

Example b64decode_padding :
  Base64.b64decode (JStr "QQ=") = Raise (mkExn BinasciiError "Incorrect padding").
Proof. reflexivity. Qed.

Example b64decode_length :
  Base64.b64decode (JStr "QUJDR")
  = Raise (mkExn BinasciiError
      "Invalid base64-encoded string: number of data characters (5) cannot be 1 more than a multiple of 4").
Proof. reflexivity. Qed.

Example b64decode_int :
  Base64.b64decode (JNum 5)
  = Raise (mkExn TypeError
      "argument should be a bytes-like object or ASCII string, not 'int'").
Proof. reflexivity. Qed.

Section Strings.

Lemma append_cons (c : ascii) (s1 s2 : string) :
  String c s1 +:+ s2 = String c (s1 +:+ s2).
Proof. reflexivity. Qed.


Lemma append_nil_r (s : string) : s +:+ "" = s.
Proof.
  induction s as [|c s IH]; [done |].
  by rewrite append_cons, IH.
Qed.

Lemma append_assoc (s1 s2 s3 : string) : (s1 +:+ s2) +:+ s3 = s1 +:+ s2 +:+ s3.
Proof.
  induction s1 as [|c s1 IH]; [done |].
  by rewrite !append_cons, IH.
Qed.

Lemma join_app (l1 l2 : list string) : join (l1 ++ l2) = join l1 +:+ join l2.
Proof.
  induction l1 as [|x l1 IH]; simpl; [done |].
  by rewrite IH, append_assoc.
Qed.

End Strings.

Section Drain.

(** The accumulation loop appends the text parts of the response. *)
Lemma add_parts_join (ps : list Part) (acc : string) :
  add_parts ps acc = acc +:+ join (omap text ps).
Proof.
  unfold add_parts. revert acc.
  induction ps as [|[[[|c t]|]] ps IH]; intros acc; simpl.
  - by rewrite append_nil_r.
  - apply IH.
  - rewrite IH. by rewrite append_assoc.
  - apply IH.
Qed.

Lemma add_response_join (r : LiveServerMessage) (acc : string) :
  iterable r = true → add_response r acc = Ret (acc +:+ join (text_parts r)).
Proof.
  unfold iterable, add_response, text_parts.
  destruct (server_content r) as [sc|]; [|by rewrite append_nil_r].
  destruct (model_turn sc) as [turn|]; [|by rewrite append_nil_r].
  destruct (parts turn) as [ps|]; [| done].
  intros _. simpl. by rewrite add_parts_join.
Qed.

(** A response whose parts cannot be iterated raises. *)
Lemma add_response_raises (r : LiveServerMessage) (acc : string) :
  iterable r = false → add_response r acc = Raise not_iterable.
Proof.
  unfold iterable, add_response.
  destruct (server_content r) as [sc|]; [| done].
  destruct (model_turn sc) as [turn|]; [| done].
  by destruct (parts turn).
Qed.

Lemma existsb_snoc (rs : list LiveServerMessage) (fin : LiveServerMessage) :
  is_turn_complete fin = true → existsb is_turn_complete (rs ++ [fin]) = true.
Proof.
  intros H. rewrite existsb_app. simpl. rewrite H.
  by destruct (existsb is_turn_complete rs).
Qed.

Variable h : Handle.

(** The video drain on a stream that yields [rs] and then either ends or
    goes on after a turn-complete response: it reads the first turn and,
    when the parts of each response read can be iterated, returns its texts
    after the accumulator. *)
Lemma receive_video_yields rs tail acc s :
  existsb is_turn_complete rs = true ∨ tail = [] →
  Forall (λ r, iterable r = true) (first_turn rs) →
  receive_video h (map Yield rs ++ tail) acc s
  = (Ret (acc +:+ join (flat_map text_parts (first_turn rs))), s,
     map (ERecv h) (first_turn rs)).
Proof.
  revert acc. induction rs as [|r rs IH]; intros acc Hc Hit.
  - destruct Hc as [Hc | ->]; [done |]. simpl. run. by rewrite append_nil_r.
  - simpl in *. run. destruct (is_turn_complete r) eqn:Hr; simpl.
    + apply Forall_cons in Hit as [Hit _].
      rewrite add_response_join by done. simpl.
      by rewrite app_nil_r.
    + apply Forall_cons in Hit as [Hit Hits].
      rewrite add_response_join by done. simpl.
      rewrite IH by (done || destruct Hc; auto). simpl.
      by rewrite join_app, append_assoc.
Qed.

(** The video drain on a stream that fails before the turn completes. *)
Lemma receive_video_fails rs e tail acc s :
  existsb is_turn_complete rs = false →
  Forall (λ r, iterable r = true) rs →
  receive_video h (map Yield rs ++ Fail e :: tail) acc s
  = (Raise e, s, map (ERecv h) rs).
Proof.
  revert acc. induction rs as [|r rs IH]; intros acc Hc Hit; simpl in *; run; [done |].
  apply Forall_cons in Hit as [Hit Hits].
  rewrite add_response_join by done. simpl.
  destruct (is_turn_complete r); simpl in *; [done |].
  by rewrite IH.
Qed.

(** The video drain on a stream that yields, before the turn completes, a
    response whose parts cannot be iterated: it raises at that response. *)
Lemma receive_video_raises rs bad tail acc s :
  existsb is_turn_complete rs = false →
  Forall (λ r, iterable r = true) rs →
  iterable bad = false →
  receive_video h (map Yield rs ++ Yield bad :: tail) acc s
  = (Raise not_iterable, s, map (ERecv h) (rs ++ [bad])).
Proof.
  revert acc. induction rs as [|r rs IH]; intros acc Hc Hit Hbad; simpl in *; run.
  - by rewrite add_response_raises.
  - apply Forall_cons in Hit as [Hit Hits].
    rewrite add_response_join by done. simpl.
    destruct (is_turn_complete r); simpl in *; [done |].
    by rewrite IH.
Qed.

Lemma audio_after_cons r rs a :
  audio_after a (r :: rs) = audio_after (capture_audio r a) rs.
Proof.
  unfold audio_after, capture_audio, payload. simpl.
  destruct (data r) as [[|b bs]|]; simpl; try done.
  rewrite last_cons. by destruct (last _).
Qed.

(** The audio drain on a stream that yields [rs] and then either ends or
    goes on after a turn-complete response. *)
Lemma receive_audio_yields rs tail acc a s :
  existsb is_turn_complete rs = true ∨ tail = [] →
  Forall (λ r, iterable r = true) (first_turn rs) →
  receive_audio h (map Yield rs ++ tail) acc a s
  = (Ret (acc +:+ join (flat_map text_parts (first_turn rs)),
          audio_after a (first_turn rs)), s,
     map (ERecv h) (first_turn rs)).
Proof.
  revert acc a. induction rs as [|r rs IH]; intros acc a Hc Hit.
  - destruct Hc as [Hc | ->]; [done |]. simpl. run. by rewrite append_nil_r.
  - simpl in *. run. destruct (is_turn_complete r) eqn:Hr; simpl.
    + apply Forall_cons in Hit as [Hit _].
      rewrite add_response_join by done. simpl.
      by rewrite app_nil_r, audio_after_cons.
    + apply Forall_cons in Hit as [Hit Hits].
      rewrite add_response_join by done. simpl.
      rewrite IH by (done || destruct Hc; auto). simpl.
      by rewrite join_app, append_assoc, audio_after_cons.
Qed.

(** The audio drain on a stream that fails before the turn completes. *)
Lemma receive_audio_fails rs e tail acc a s :
  existsb is_turn_complete rs = false →
  Forall (λ r, iterable r = true) rs →
  receive_audio h (map Yield rs ++ Fail e :: tail) acc a s
  = (Raise e, s, map (ERecv h) rs).
Proof.
  revert acc a. induction rs as [|r rs IH]; intros acc a Hc Hit; simpl in *; run;
    [done |].
  apply Forall_cons in Hit as [Hit Hits].
  rewrite add_response_join by done. simpl.
  destruct (is_turn_complete r); simpl in *; [done |].
  by rewrite IH.
Qed.

(** The audio drain on a stream that yields, before the turn completes, a
    response whose parts cannot be iterated. *)
Lemma receive_audio_raises rs bad tail acc a s :
  existsb is_turn_complete rs = false →
  Forall (λ r, iterable r = true) rs →
  iterable bad = false →
  receive_audio h (map Yield rs ++ Yield bad :: tail) acc a s
  = (Raise not_iterable, s, map (ERecv h) (rs ++ [bad])).
Proof.
  revert acc a. induction rs as [|r rs IH]; intros acc a Hc Hit Hbad; simpl in *; run.
  - by rewrite add_response_raises.
  - apply Forall_cons in Hit as [Hit Hits].
    rewrite add_response_join by done. simpl.
    destruct (is_turn_complete r); simpl in *; [done |].
    by rewrite IH.
Qed.

(** Whatever the stream does, a drain leaves the state alone and only
    reads responses. *)
Lemma receive_video_run stream acc s :
  ∃ r rs, receive_video h stream acc s = (r, s, map (ERecv h) rs).
Proof.
  revert acc. induction stream as [|[x|e] stream IH]; intros acc; simpl; run.
  - by exists (Ret acc), [].
  - destruct (add_response x acc) as [acc'|e]; simpl; [| by exists (Raise e), [x]].
    destruct (is_turn_complete x).
    + by exists (Ret acc'), [x].
    + destruct (IH acc') as (r & rs & ->).
      exists r, (x :: rs). by destruct r.
  - by exists (Raise e), [].
Qed.

Lemma receive_audio_run stream acc a s :
  ∃ r rs, receive_audio h stream acc a s = (r, s, map (ERecv h) rs).
Proof.
  revert acc a. induction stream as [|[x|e] stream IH]; intros acc a; simpl; run.
  - by exists (Ret (acc, a)), [].
  - destruct (add_response x acc) as [acc'|e]; simpl; [| by exists (Raise e), [x]].
    destruct (is_turn_complete x).
    + by exists (Ret (acc', capture_audio x a)), [x].
    + destruct (IH acc' (capture_audio x a)) as (r & rs & ->).
      exists r, (x :: rs). by destruct r.
  - by exists (Raise e), [].
Qed.

End Drain.

Section Observations.


Lemma sent_recv h rs : sent (map (ERecv h) rs) = [].
Proof. by induction rs. Qed.

Lemma ws_sent_recv h rs : ws_sent (map (ERecv h) rs) = [].
Proof. by induction rs. Qed.

Lemma ws_sent_app evs1 evs2 : ws_sent (evs1 ++ evs2) = ws_sent evs1 ++ ws_sent evs2.
Proof. unfold ws_sent. apply omap_app. Qed.

End Observations.

Section Media.

Variable u : Env.

(** [start_live_session] by the answer of [connect]. *)
Lemma start_live_session_run s :
  start_live_session u s
  = match connect_result u with
    | None => (Ret true, started s, [EConnect model config])
    | Some _ => (Ret false, s, [EConnect model config])
    end.
Proof. unfold start_live_session. run. by destruct (connect_result u). Qed.

(** [process_video_frame] when a session is stored: the steps of the
    [try] block in turn. *)
Lemma process_video_frame_started s h frame_data :
  session s = Some h →
  process_video_frame u frame_data s
  = match Base64.b64decode frame_data with
    | Raise e => (Ret (error_dict e (now u)), s, [])
    | Ret bs =>
        let ev := ESend h (Image (mkBlob bs (Some "image/jpeg"))) in
        match send_result u with
        | Some e => (Ret (error_dict e (now u)), s, [ev])
        | None =>
            let rv := receive_video h (replies u) "" s in
            (Ret match result rv with
                 | Ret response_text => analysis_dict response_text (now u)
                 | Raise e => error_dict e (now u)
                 end, s, ev :: events rv)
        end
    end.
Proof.
  intros Hs. unfold process_video_frame. run. rewrite Hs. simpl. rewrite Hs.
  destruct (Base64.b64decode frame_data); simpl; [|done].
  destruct (send_result u); simpl; rewrite ?Hs; [done |].
  destruct (receive_video_run h (replies u) "" s) as (r & rs & ->).
  destruct r; simpl; by rewrite ?app_nil_r.
Qed.

Lemma process_audio_chunk_started s h audio_data mime_type :
  session s = Some h →
  process_audio_chunk u audio_data mime_type s
  = match Base64.b64decode audio_data with
    | Raise e => (Ret (error_dict e (now u)), s, [])
    | Ret bs =>
        match Blob_new u bs mime_type with
        | Raise e => (Ret (error_dict e (now u)), s, [])
        | Ret blob =>
            let ev := ESend h (Audio blob) in
            match send_result u with
            | Some e => (Ret (error_dict e (now u)), s, [ev])
            | None =>
                let rv := receive_audio h (replies u) "" None s in
                (Ret match result rv with
                     | Ret reply => audio_analysis_dict reply (now u)
                     | Raise e => error_dict e (now u)
                     end, s, ev :: events rv)
            end
        end
    end.
Proof.
  intros Hs. unfold process_audio_chunk. run. rewrite Hs. simpl. rewrite Hs.
  destruct (Base64.b64decode audio_data); simpl; [|done].
  destruct (Blob_new _ _ mime_type); simpl; [|done].
  destruct (send_result u); simpl; rewrite ?Hs; [done |].
  destruct (receive_audio_run h (replies u) "" None s) as (r & rs & ->).
  destruct r as [[response_text audio_response]|]; simpl; by rewrite ?app_nil_r.
Qed.

(** A media operation when no session is stored: [start_live_session]
    first, then the same operation on the state it leaves. *)
Lemma process_video_frame_unstarted s frame_data :
  session s = None →
  process_video_frame u frame_data s
  = match connect_result u with
    | None =>
        let o := process_video_frame u frame_data (started s) in
        (result o, post o, EConnect model config :: events o)
    | Some _ =>
        (Ret (error_dict (no_session "send_realtime_input") (now u)), s,
         [EConnect model config])
    end.
Proof.
  intros Hs.
  destruct (connect_result u) as [e|] eqn:Hc.
  - unfold process_video_frame. run. rewrite Hs. simpl.
    rewrite start_live_session_run, Hc. simpl. by rewrite Hs.
  - rewrite (process_video_frame_started (started s) (next_handle s)) by done.
    unfold process_video_frame. run. rewrite Hs. simpl.
    rewrite start_live_session_run, Hc. simpl.
    destruct (Base64.b64decode frame_data); simpl; [|done].
    destruct (send_result u); simpl; [done |].
    destruct (receive_video_run (next_handle s) (replies u) "" (started s))
      as (r & rs & ->).
    destruct r; simpl; by rewrite ?app_nil_r.
Qed.

Lemma process_audio_chunk_unstarted s audio_data mime_type :
  session s = None →
  process_audio_chunk u audio_data mime_type s
  = match connect_result u with
    | None =>
        let o := process_audio_chunk u audio_data mime_type (started s) in
        (result o, post o, EConnect model config :: events o)
    | Some _ =>
        (Ret (error_dict (no_session "send_realtime_input") (now u)), s,
         [EConnect model config])
    end.
Proof.
  intros Hs.
  destruct (connect_result u) as [e|] eqn:Hc.
  - unfold process_audio_chunk. run. rewrite Hs. simpl.
    rewrite start_live_session_run, Hc. simpl. by rewrite Hs.
  - rewrite (process_audio_chunk_started (started s) (next_handle s)) by done.
    unfold process_audio_chunk. run. rewrite Hs. simpl.
    rewrite start_live_session_run, Hc. simpl.
    destruct (Base64.b64decode audio_data); simpl; [|done].
    destruct (Blob_new _ _ mime_type); simpl; [|done].
    destruct (send_result u); simpl; [done |].
    destruct (receive_audio_run (next_handle s) (replies u) "" None (started s))
      as (r & rs & ->).
    destruct r as [[response_text audio_response]|]; simpl; by rewrite ?app_nil_r.
Qed.

(** With a session stored, or one that [connect] grants, the operation is
    the one on a state with a session [h], after the events of the start. *)
Lemma process_video_frame_available s frame_data :
  (session s = None → connect_result u = None) →
  ∃ s' h pre,
    session s' = Some h
    ∧ (s' = s ∧ pre = [] ∨ session s = None ∧ s' = started s ∧ pre = [EConnect model config])
    ∧ process_video_frame u frame_data s
      = (result (process_video_frame u frame_data s'),
         post (process_video_frame u frame_data s'),
         pre ++ events (process_video_frame u frame_data s')).
Proof.
  intros Hc. destruct (session s) as [h|] eqn:Hs.
  - exists s, h, []. split_and!; [done | by left |].
    by destruct (process_video_frame u frame_data s) as [[??]?].
  - exists (started s), (next_handle s), [EConnect model config].
    split_and!; [done | by right |].
    by rewrite (process_video_frame_unstarted s), Hc.
Qed.

Lemma process_audio_chunk_available s audio_data mime_type :
  (session s = None → connect_result u = None) →
  ∃ s' h pre,
    session s' = Some h
    ∧ (s' = s ∧ pre = [] ∨ session s = None ∧ s' = started s ∧ pre = [EConnect model config])
    ∧ process_audio_chunk u audio_data mime_type s
      = (result (process_audio_chunk u audio_data mime_type s'),
         post (process_audio_chunk u audio_data mime_type s'),
         pre ++ events (process_audio_chunk u audio_data mime_type s')).
Proof.
  intros Hc. destruct (session s) as [h|] eqn:Hs.
  - exists s, h, []. split_and!; [done | by left |].
    by destruct (process_audio_chunk u audio_data mime_type s) as [[??]?].
  - exists (started s), (next_handle s), [EConnect model config].
    split_and!; [done | by right |].
    by rewrite (process_audio_chunk_unstarted s), Hc.
Qed.

(** A media operation always returns, with a dictionary that carries the
    clock reading and one of two types; it writes nothing to a websocket,
    and it leaves the state [start_live_session] left, or the one it found. *)
Lemma process_video_frame_shape s frame_data :
  ∃ d evs,
    process_video_frame u frame_data s
    = (Ret d, if session s is Some _ then s else post (start_live_session u s), evs)
    ∧ dict_get "timestamp" d = Some (JNum (now u))
    ∧ (dict_get "type" d = Some (JStr "analysis")
       ∨ dict_get "type" d = Some (JStr "error"))
    ∧ ws_sent evs = [].
Proof.
  assert (∀ s' h, session s' = Some h →
    ∃ d evs, process_video_frame u frame_data s' = (Ret d, s', evs)
      ∧ dict_get "timestamp" d = Some (JNum (now u))
      ∧ (dict_get "type" d = Some (JStr "analysis")
         ∨ dict_get "type" d = Some (JStr "error"))
      ∧ ws_sent evs = []) as Hstarted.
  { intros s' h Hs. rewrite (process_video_frame_started s' h) by done.
    destruct (Base64.b64decode frame_data); [|by eauto 10].
    destruct (send_result u); simpl; [by eauto 10 |].
    destruct (receive_video_run h (replies u) "" s') as (r & rs & ->).
    destruct r; simpl; eexists _, _; split_and!; eauto using ws_sent_recv. }
  destruct (session s) as [h|] eqn:Hs.
  - destruct (Hstarted s h Hs) as (d & evs & Hrun & ?). rewrite Hrun. eauto 10.
  - rewrite (process_video_frame_unstarted s), start_live_session_run by done.
    destruct (connect_result u); simpl; [by eauto 10 |].
    destruct (Hstarted (started s) (next_handle s)) as (d & evs & -> & ?); [done |].
    simpl. eauto 10.
Qed.

Lemma process_audio_chunk_shape s audio_data mime_type :
  ∃ d evs,
    process_audio_chunk u audio_data mime_type s
    = (Ret d, if session s is Some _ then s else post (start_live_session u s), evs)
    ∧ dict_get "timestamp" d = Some (JNum (now u))
    ∧ (dict_get "type" d = Some (JStr "audio_analysis")
       ∨ dict_get "type" d = Some (JStr "error"))
    ∧ ws_sent evs = [].
Proof.
  assert (∀ s' h, session s' = Some h →
    ∃ d evs, process_audio_chunk u audio_data mime_type s' = (Ret d, s', evs)
      ∧ dict_get "timestamp" d = Some (JNum (now u))
      ∧ (dict_get "type" d = Some (JStr "audio_analysis")
         ∨ dict_get "type" d = Some (JStr "error"))
      ∧ ws_sent evs = []) as Hstarted.
  { intros s' h Hs. rewrite (process_audio_chunk_started s' h) by done.
    destruct (Base64.b64decode audio_data); [|by eauto 10].
    destruct (Blob_new _ _ mime_type); [|by eauto 10].
    destruct (send_result u); simpl; [by eauto 10 |].
    destruct (receive_audio_run h (replies u) "" None s') as (r & rs & ->).
    destruct r; simpl; eexists _, _; split_and!; eauto using ws_sent_recv. }
  destruct (session s) as [h|] eqn:Hs.
  - destruct (Hstarted s h Hs) as (d & evs & Hrun & ?). rewrite Hrun. eauto 10.
  - rewrite (process_audio_chunk_unstarted s), start_live_session_run by done.
    destruct (connect_result u); simpl; [by eauto 10 |].
    destruct (Hstarted (started s) (next_handle s)) as (d & evs & -> & ?); [done |].
    simpl. eauto 10.
Qed.

End Media.

Section Turns.

Lemma none_complete (rs : list LiveServerMessage) :
  Forall (λ r, is_turn_complete r = false) rs → existsb is_turn_complete rs = false.
Proof. induction 1 as [|r rs Hr _ IH]; simpl; [done | by rewrite Hr]. Qed.

(** A stream whose first turn-complete response is [fin]: the turn is
    everything up to and including [fin]. *)
Lemma first_turn_snoc (rs : list LiveServerMessage) (fin : LiveServerMessage) :
  Forall (λ r, is_turn_complete r = false) rs →
  is_turn_complete fin = true →
  first_turn (rs ++ [fin]) = rs ++ [fin].
Proof.
  intros Hrs Hfin. induction Hrs as [|r rs Hr _ IH]; simpl.
  - by rewrite Hfin.
  - by rewrite Hr, IH.
Qed.

Lemma yield_snoc (rs : list LiveServerMessage) fin (tail : list (Step LiveServerMessage)) :
  map Yield rs ++ Yield fin :: tail = map Yield (rs ++ [fin]) ++ tail.
Proof. by rewrite map_app, <- app_assoc. Qed.

End Turns.

(** C1: when the upstream send or receive raises during ProcessVideoFrame or
    ProcessAudioChunk, the operation returns (it does not raise) the
    dictionary of type "error" whose content is exactly the text of the
    exception, without any of the text accumulated before the failure, and
    whose timestamp is the clock reading.  The send is reached when a session
    is stored or can be started and the payload decodes; the receive fails
    when the stream raises [e] after responses [rs], none of them
    turn-complete and each with parts that can be iterated (a response whose
    parts cannot raises before the stream does). *)
Theorem C1_upstream_exception_becomes_error_result
    (u : Env) (s : Sys) (payload_data mime_type : JValue) (bs : bytes) (blob : Blob)
    (e : Exn) (rs : list LiveServerMessage) (tail : list (Step LiveServerMessage)) :
  (session s = None → connect_result u = None) →
  Base64.b64decode payload_data = Ret bs →
  Blob_new u bs mime_type = Ret blob →
  send_result u = Some e
  ∨ (send_result u = None
     ∧ replies u = map Yield rs ++ Fail e :: tail
     ∧ Forall (λ r, is_turn_complete r = false) rs
     ∧ Forall (λ r, iterable r = true) rs) →
  result (process_video_frame u payload_data s)
  = Ret [("type", JStr "error"); ("content", JStr (str e)); ("timestamp", JNum (now u))]
  ∧ result (process_audio_chunk u payload_data mime_type s)
    = Ret [("type", JStr "error"); ("content", JStr (str e)); ("timestamp", JNum (now u))].
Proof.
  intros Hsession Hdecode Hblob Hraise. split.
  - destruct (process_video_frame_available u s payload_data Hsession)
      as (s' & h & pre & Hs' & _ & ->).
    unfold result at 1. simpl.
    rewrite (process_video_frame_started u s' h), Hdecode by done.
    destruct Hraise as [-> | (-> & -> & Hrs & Hit)]; simpl; [done |].
    by rewrite receive_video_fails by (done || by apply none_complete).
  - destruct (process_audio_chunk_available u s payload_data mime_type Hsession)
      as (s' & h & pre & Hs' & _ & ->).
    unfold result at 1. simpl.
    rewrite (process_audio_chunk_started u s' h), Hdecode, Hblob by done.
    destruct Hraise as [-> | (-> & -> & Hrs & Hit)]; simpl; [done |].
    by rewrite receive_audio_fails by (done || by apply none_complete).
Qed.

Lemma C1_witness :
  result (process_video_frame
            (answering [Yield (text_response "person at" false); Fail reset])
            (JStr "QUJD") init)
  = Ret [("type", JStr "error");
         ("content", JStr "no close frame received or sent");
         ("timestamp", JNum 1000)]
  ∧ result (process_audio_chunk
              (answering [Yield (text_response "person at" false); Fail reset])
              (JStr "QUJD") (JStr "audio/webm") init)
    = Ret [("type", JStr "error");
           ("content", JStr "no close frame received or sent");
           ("timestamp", JNum 1000)].
Proof.
  apply (C1_upstream_exception_becomes_error_result
           (answering [Yield (text_response "person at" false); Fail reset])
           init (JStr "QUJD") (JStr "audio/webm")
           ["A"; "B"; "C"]%byte (mkBlob ["A"; "B"; "C"]%byte (Some "audio/webm"))
           reset [text_response "person at" false] []).
  - reflexivity.
  - reflexivity.
  - reflexivity.
  - right. split; [reflexivity |]. split; [reflexivity |].
    split; (constructor; [reflexivity | constructor]).
Defined.

(** C2, as stated, fails: the payload is valid base64 and a session is
    stored, but the upstream refuses the payload, and the type of the result
    is "error", not "analysis" or "audio_analysis". *)
Lemma C2_counterexample :
  Base64.b64decode (JStr "QUJD") = Ret ["A"; "B"; "C"]%byte
  ∧ (∃ d, result (process_video_frame refusing (JStr "QUJD") (active 0)) = Ret d
          ∧ dict_get "type" d = Some (JStr "error")
          ∧ dict_get "type" d ≠ Some (JStr "analysis"))
  ∧ (∃ d, result (process_audio_chunk refusing (JStr "QUJD") (JStr "audio/webm") (active 0))
          = Ret d
          ∧ dict_get "type" d = Some (JStr "error")
          ∧ dict_get "type" d ≠ Some (JStr "audio_analysis")).
Proof.
  split; [reflexivity |].
  split; eexists; (split; [reflexivity |]); split; [reflexivity | discriminate | reflexivity | discriminate].
Qed.

(** C2, amended: for every input, valid base64 or not, ProcessVideoFrame
    and ProcessAudioChunk return a dictionary whose timestamp is the clock
    reading (not null), and the path decides its type.  The type is the one
    of the operation ("analysis", "audio_analysis"), with the text of the
    drain as content, exactly when the [try] block completes: a session is
    stored or was started, the payload decodes (and, for audio, the blob
    validates), the send returns and the drain returns.  It is "error", with
    the text of the exception as content, exactly when one of these steps
    raises. *)
Theorem C2_timestamp_and_type
    (u : Env) (s : Sys) (payload_data mime_type : JValue) :
  (∃ d, result (process_video_frame u payload_data s) = Ret d
        ∧ dict_get "timestamp" d = Some (JNum (now u))
        ∧ (dict_get "type" d = Some (JStr "analysis")
           ∨ dict_get "type" d = Some (JStr "error")))
  ∧ (∃ d, result (process_audio_chunk u payload_data mime_type s) = Ret d
          ∧ dict_get "timestamp" d = Some (JNum (now u))
          ∧ (dict_get "type" d = Some (JStr "audio_analysis")
             ∨ dict_get "type" d = Some (JStr "error")))
  ∧ result (process_video_frame u payload_data s)
    = Ret match entry u s with
          | None =>
              [("type", JStr "error");
               ("content",
                JStr "'NoneType' object has no attribute 'send_realtime_input'");
               ("timestamp", JNum (now u))]
          | Some (h, s') =>
              match Base64.b64decode payload_data with
              | Raise e =>
                  [("type", JStr "error"); ("content", JStr (str e));
                   ("timestamp", JNum (now u))]
              | Ret bs =>
                  match send_result u with
                  | Some e =>
                      [("type", JStr "error"); ("content", JStr (str e));
                       ("timestamp", JNum (now u))]
                  | None =>
                      match result (receive_video h (replies u) "" s') with
                      | Ret response_text =>
                          [("type", JStr "analysis");
                           ("content", JStr response_text);
                           ("timestamp", JNum (now u))]
                      | Raise e =>
                          [("type", JStr "error"); ("content", JStr (str e));
                           ("timestamp", JNum (now u))]
                      end
                  end
              end
          end
  ∧ result (process_audio_chunk u payload_data mime_type s)
    = Ret match entry u s with
          | None =>
              [("type", JStr "error");
               ("content",
                JStr "'NoneType' object has no attribute 'send_realtime_input'");
               ("timestamp", JNum (now u))]
          | Some (h, s') =>
              match Base64.b64decode payload_data with
              | Raise e =>
                  [("type", JStr "error"); ("content", JStr (str e));
                   ("timestamp", JNum (now u))]
              | Ret bs =>
                  match Blob_new u bs mime_type with
                  | Raise e =>
                      [("type", JStr "error"); ("content", JStr (str e));
                       ("timestamp", JNum (now u))]
                  | Ret blob =>
                      match send_result u with
                      | Some e =>
                          [("type", JStr "error"); ("content", JStr (str e));
                           ("timestamp", JNum (now u))]
                      | None =>
                          match result (receive_audio h (replies u) "" None s') with
                          | Ret (response_text, audio_response) =>
                              [("type", JStr "audio_analysis");
                               ("content", JStr response_text);
                               ("audio_response", of_optional_str audio_response);
                               ("timestamp", JNum (now u))]
                          | Raise e =>
                              [("type", JStr "error"); ("content", JStr (str e));
                               ("timestamp", JNum (now u))]
                          end
                      end
                  end
              end
          end.
Proof.
  split_and!.
  - destruct (process_video_frame_shape u s payload_data)
      as (d & evs & -> & Ht & Hty & _).
    by exists d.
  - destruct (process_audio_chunk_shape u s payload_data mime_type)
      as (d & evs & -> & Ht & Hty & _).
    by exists d.
  - unfold entry. destruct (session s) as [h|] eqn:Hs.
    + rewrite (process_video_frame_started u s h) by done.
      destruct (Base64.b64decode payload_data); [| done].
      destruct (send_result u); simpl; [done |].
      unfold result at 1. simpl. by destruct (result _).
    + rewrite (process_video_frame_unstarted u s) by done.
      destruct (connect_result u); [done |].
      unfold result at 1. simpl.
      rewrite (process_video_frame_started u (started s) (next_handle s)) by done.
      destruct (Base64.b64decode payload_data); [| done].
      destruct (send_result u); simpl; [done |].
      unfold result at 1. simpl. by destruct (result _).
  - unfold entry. destruct (session s) as [h|] eqn:Hs.
    + rewrite (process_audio_chunk_started u s h) by done.
      destruct (Base64.b64decode payload_data); [| done].
      destruct (Blob_new u _ mime_type); [| done].
      destruct (send_result u); simpl; [done |].
      unfold result at 1. simpl. by destruct (result _) as [[??]|].
    + rewrite (process_audio_chunk_unstarted u s) by done.
      destruct (connect_result u); [done |].
      unfold result at 1. simpl.
      rewrite (process_audio_chunk_started u (started s) (next_handle s)) by done.
      destruct (Base64.b64decode payload_data); [| done].
      destruct (Blob_new u _ mime_type); [| done].
      destruct (send_result u); simpl; [done |].
      unfold result at 1. simpl. by destruct (result _) as [[??]|].
Qed.




(** C4, as stated, fails: no session is stored and the upstream cannot be
    reached.  [start_live_session] is called and fails, no session is
    established, nothing is sent, and the result is the error for the session
    that is missing. *)
Lemma C4_counterexample :
  session init = None
  ∧ process_video_frame offline (JStr "QUJD") init
    = (Ret [("type", JStr "error");
            ("content", JStr "'NoneType' object has no attribute 'send_realtime_input'");
            ("timestamp", JNum 1000)],
       init, [EConnect model config])
  ∧ process_audio_chunk offline (JStr "QUJD") (JStr "audio/webm") init
    = (Ret [("type", JStr "error");
            ("content", JStr "'NoneType' object has no attribute 'send_realtime_input'");
            ("timestamp", JNum 1000)],
       init, [EConnect model config]).
Proof. split_and!; reflexivity. Qed.

(** C4, amended: in every state without a session (the state CloseSession
    leaves is one), ProcessVideoFrame and ProcessAudioChunk call StartSession
    first.  When its connect succeeds the new session is stored, the connect
    is the first call of the run and a payload that decodes is sent once, on
    the new session.  When its connect fails, no session is stored, nothing
    is sent, and the operation returns the error-typed result for the
    attribute looked up on the missing session. *)
Theorem C4_start_precedes_send
    (u : Env) (s : Sys) (payload_data mime_type : JValue) :
  session s = None →
  (∀ s0, session (post (close_session s0)) = None)
  ∧ (connect_result u = None →
     (session (post (process_video_frame u payload_data s)) = Some (next_handle s)
      ∧ (∃ rest, events (process_video_frame u payload_data s)
                 = EConnect model config :: rest)
      ∧ ∀ bs, Base64.b64decode payload_data = Ret bs →
          sent (events (process_video_frame u payload_data s))
          = [(next_handle s, Image (mkBlob bs (Some "image/jpeg")))])
     ∧ (session (post (process_audio_chunk u payload_data mime_type s))
        = Some (next_handle s)
        ∧ (∃ rest, events (process_audio_chunk u payload_data mime_type s)
                   = EConnect model config :: rest)
        ∧ ∀ bs blob, Base64.b64decode payload_data = Ret bs →
            Blob_new u bs mime_type = Ret blob →
            sent (events (process_audio_chunk u payload_data mime_type s))
            = [(next_handle s, Audio blob)]))
  ∧ (∀ e, connect_result u = Some e →
     process_video_frame u payload_data s
     = (Ret [("type", JStr "error");
             ("content", JStr "'NoneType' object has no attribute 'send_realtime_input'");
             ("timestamp", JNum (now u))],
        s, [EConnect model config])
     ∧ process_audio_chunk u payload_data mime_type s
       = (Ret [("type", JStr "error");
               ("content", JStr "'NoneType' object has no attribute 'send_realtime_input'");
               ("timestamp", JNum (now u))],
          s, [EConnect model config])).
Proof.
  intros Hs. split_and!.
  - intros s0. unfold close_session. run. by destruct (session s0) eqn:Hs0.
  - intros Hc. split.
    + rewrite (process_video_frame_unstarted u s), Hc by done. simpl.
      destruct (process_video_frame_shape u (started s) payload_data)
        as (d & evs & Hrun & _).
      split_and!; [by rewrite Hrun | by eauto |].
      intros bs Hbs. unfold events at 1. simpl.
      rewrite (process_video_frame_started u (started s) (next_handle s)), Hbs by done.
      destruct (send_result u); simpl; [done |].
      destruct (receive_video_run (next_handle s) (replies u) "" (started s))
        as (r & rs & ->).
      unfold events. simpl. f_equal. apply sent_recv.
    + rewrite (process_audio_chunk_unstarted u s), Hc by done. simpl.
      destruct (process_audio_chunk_shape u (started s) payload_data mime_type)
        as (d & evs & Hrun & _).
      split_and!; [by rewrite Hrun | by eauto |].
      intros bs blob Hbs Hblob. unfold events at 1. simpl.
      rewrite (process_audio_chunk_started u (started s) (next_handle s)), Hbs, Hblob
        by done.
      destruct (send_result u); simpl; [done |].
      destruct (receive_audio_run (next_handle s) (replies u) "" None (started s))
        as (r & rs & ->).
      unfold events. simpl. f_equal. apply sent_recv.
  - intros e He.
    by rewrite (process_video_frame_unstarted u s),
      (process_audio_chunk_unstarted u s), He.
Qed.

Lemma C4_witness :
  session (post (process_video_frame (answering [Yield (text_response "clear" true)])
                   (JStr "QUJD") init)) = Some 0
  ∧ sent (events (process_video_frame (answering [Yield (text_response "clear" true)])
                    (JStr "QUJD") init))
    = [(0, Image (mkBlob ["A"; "B"; "C"]%byte (Some "image/jpeg")))].
Proof.
  pose proof (C4_start_precedes_send (answering [Yield (text_response "clear" true)])
                init (JStr "QUJD") (JStr "audio/webm") eq_refl) as (_ & Hok & _).
  destruct (Hok eq_refl) as ((Hsession & _ & Hsent) & _).
  split; [exact Hsession |].
  exact (Hsent ["A"; "B"; "C"]%byte eq_refl).
Defined.

(** C5, as stated, fails: two StartSession calls in a row that both connect
    store two different handles. *)
Lemma C5_counterexample :
  session (post (start_live_session (answering []) init)) = Some 0
  ∧ session (post (start_live_session (answering [])
                     (post (start_live_session (answering []) init)))) = Some 1
  ∧ session (post (start_live_session (answering [])
                     (post (start_live_session (answering []) init))))
    ≠ session (post (start_live_session (answering []) init)).
Proof. split_and!; [reflexivity | reflexivity | discriminate]. Qed.

(** C5, amended: a second StartSession without CloseSession in between
    connects again.  When the second connect succeeds, the stored handle is
    replaced by the new session, which is not the one the first call stored,
    and the first session is not closed (the only upstream call is the
    connect); when the second connect fails, the handle the first call stored
    stays. *)
Theorem C5_second_start_reconnects (u1 u2 : Env) (s : Sys) :
  connect_result u1 = None →
  session (post (start_live_session u1 s)) = Some (next_handle s)
  ∧ (connect_result u2 = None →
     session (post (start_live_session u2 (post (start_live_session u1 s))))
     = Some (S (next_handle s))
     ∧ session (post (start_live_session u2 (post (start_live_session u1 s))))
       ≠ session (post (start_live_session u1 s))
     ∧ events (start_live_session u2 (post (start_live_session u1 s)))
       = [EConnect model config])
  ∧ (∀ e, connect_result u2 = Some e →
     session (post (start_live_session u2 (post (start_live_session u1 s))))
     = session (post (start_live_session u1 s))).
Proof.
  intros H1. rewrite !start_live_session_run, H1. simpl. split_and!; [done | |].
  - intros H2. rewrite H2. simpl.
    split_and!; [done | | done]. intros [=]. lia.
  - intros e H2. by rewrite H2.
Qed.

Lemma C5_witness :
  session (post (start_live_session (answering []) init)) = Some 0
  ∧ session (post (start_live_session (answering [])
                     (post (start_live_session (answering []) init)))) = Some 1
  ∧ session (post (start_live_session offline
                     (post (start_live_session (answering []) init)))) = Some 0.
Proof.
  pose proof (C5_second_start_reconnects (answering []) (answering []) init eq_refl)
    as (Hfirst & Hsecond & _).
  pose proof (C5_second_start_reconnects (answering []) offline init eq_refl)
    as (_ & _ & Hfails).
  split; [exact Hfirst |].
  split; [exact (proj1 (Hsecond eq_refl)) |].
  exact (Hfails unreachable eq_refl).
Defined.

(** C6: CloseSession with a session stored closes that session upstream and
    clears the stored handle; without one it does nothing; a second
    CloseSession right after the first does nothing, so two calls leave the
    state one call leaves. *)
Theorem C6_close_session_idempotent (s : Sys) :
  close_session s
  = match session s with
    | Some h =>
        (Ret tt,
         {| session := None; connected_clients := connected_clients s;
            next_handle := next_handle s |},
         [EClose h])
    | None => (Ret tt, s, [])
    end
  ∧ close_session (post (close_session s)) = (Ret tt, post (close_session s), [])
  ∧ post ((close_session;; close_session) s) = post (close_session s).
Proof.
  unfold close_session. run.
  destruct (session s) eqn:Hs; unfold post; simpl; by rewrite ?Hs.
Qed.

Section Dispatch.

Variables (websocket : Conn) (u : Env).

(** [websocket.send] is one write on the websocket, whether it raises or not. *)
Lemma ws_send_run payload s :
  ∃ r, ws_send u websocket payload s = (r, s, [EWsSend websocket payload]).
Proof. run. destruct (ws_send_result u); eauto. Qed.

Lemma close_session_run s :
  ∃ s' evs, close_session s = (Ret tt, s', evs) ∧ ws_sent evs = [].
Proof.
  unfold close_session. run. destruct (session s); simpl; eauto.
Qed.

End Dispatch.

(** C7: for a decoded JSON object with a "type" (and with "data" when the
    type is one of the two media types), HandleMessage writes exactly one
    envelope, on the websocket the message came from, when the type is
    video_frame, audio_chunk, start_session or stop_session; for any other
    type it writes nothing, changes nothing and returns, so that the receive
    loop goes on with the next message. *)
Theorem C7_one_envelope_per_known_type
    (websocket : Conn) (u : Env) (s : Sys) (d : Dict) (type : JValue) :
  dict_get "type" d = Some type →
  (py_eq_str type "video_frame" || py_eq_str type "audio_chunk" = true →
   is_Some (dict_get "data" d)) →
  (py_eq_str type "video_frame" || py_eq_str type "audio_chunk"
   || py_eq_str type "start_session" || py_eq_str type "stop_session" = true →
   ∃ envelope,
     ws_sent (events (handle_message websocket u (JSON (JObj d)) s))
     = [(websocket, envelope)])
  ∧ (py_eq_str type "video_frame" || py_eq_str type "audio_chunk"
     || py_eq_str type "start_session" || py_eq_str type "stop_session" = false →
     handle_message websocket u (JSON (JObj d)) s = (Ret tt, s, [])
     ∧ ∀ rest, receive_loop websocket (Yield (JSON (JObj d), u) :: rest) s
               = receive_loop websocket rest s).
Proof.
  intros Htype Hdata.
  unfold handle_message, events. unfold_monad. simpl. rewrite Htype.
  destruct (py_eq_str type "video_frame") eqn:Hv; simpl.
  { split; [intros _ | done].
    destruct Hdata as [x Hx]; [done |]. rewrite Hx.
    destruct (process_video_frame_shape u s x) as (d' & evs & -> & _ & _ & Hevs).
    destruct (ws_send_run websocket u d' (if session s is Some _ then s
                else post (start_live_session u s))) as (r & ->).
    exists d'. simpl. by rewrite ws_sent_app, Hevs. }
  destruct (py_eq_str type "audio_chunk") eqn:Ha; simpl.
  { split; [intros _ | done].
    destruct Hdata as [x Hx]; [done |]. rewrite Hx.
    destruct (process_audio_chunk_shape u s x
                (default (JStr "audio/webm") (dict_get "mime_type" d)))
      as (d' & evs & -> & _ & _ & Hevs).
    destruct (ws_send_run websocket u d' (if session s is Some _ then s
                else post (start_live_session u s))) as (r & ->).
    exists d'. simpl. by rewrite ws_sent_app, Hevs. }
  destruct (py_eq_str type "start_session") eqn:Hstart; simpl.
  { split; [intros _ | done].
    rewrite start_live_session_run.
    destruct (connect_result u); simpl.
    - destruct (ws_send_run websocket u (session_status "error") s) as (r & ->).
      by eexists.
    - destruct (ws_send_run websocket u (session_status "connected") (started s))
        as (r & ->).
      by eexists. }
  destruct (py_eq_str type "stop_session") eqn:Hstop; simpl.
  { split; [intros _ | done].
    destruct (close_session_run s) as (s' & evs & -> & Hevs).
    destruct (ws_send_run websocket u (session_status "disconnected") s') as (r & ->).
    eexists. simpl. by rewrite ws_sent_app, Hevs. }
  split; [done | intros _]. split; [done |].
  assert (handle_message websocket u (JSON (JObj d)) s = (Ret tt, s, [])) as Hnoop.
  { unfold handle_message. unfold_monad. simpl.
    by rewrite Htype, Hv, Ha, Hstart, Hstop. }
  intros rest. unfold mbind, M_bind. rewrite Hnoop.
  by destruct (receive_loop websocket rest s) as [[r s'] evs].
Qed.

Lemma C7_witness :
  (∃ envelope,
     ws_sent (events (handle_message 7 (answering [Yield (text_response "clear" true)])
                        (JSON (JObj [("type", JStr "video_frame");
                                     ("data", JStr "QUJD")])) init))
     = [(7, envelope)])
  ∧ handle_message 7 (answering [])
      (JSON (JObj [("type", JStr "ping"); ("data", JStr "QUJD")])) init
    = (Ret tt, init, []).
Proof.
  split.
  - apply (C7_one_envelope_per_known_type 7
             (answering [Yield (text_response "clear" true)]) init
             [("type", JStr "video_frame"); ("data", JStr "QUJD")]
             (JStr "video_frame")).
    + reflexivity.
    + intros _. exists (JStr "QUJD"). reflexivity.
    + reflexivity.
  - apply (C7_one_envelope_per_known_type 7 (answering []) init
             [("type", JStr "ping"); ("data", JStr "QUJD")] (JStr "ping")).
    + reflexivity.
    + intros [=].
    + reflexivity.
Defined.

(** C8, as stated, fails: a message that is not JSON raises out of the
    receive loop.  The start_session message that follows it on the same
    connection is never handled (the run makes no call at all, where the same
    message alone is answered), and the connection is no longer registered. *)
Lemma C8_counterexample :
  result (handle_message 7 (answering []) (NotJSON "Expecting value: line 1 column 1 (char 0)") init)
  = Raise (mkExn JSONDecodeError "Expecting value: line 1 column 1 (char 0)")
  ∧ events (handle_client 7 "/"
              [Yield (NotJSON "Expecting value: line 1 column 1 (char 0)", answering []);
               Yield (JSON (JObj [("type", JStr "start_session")]), answering [])]
              init) = []
  ∧ events (handle_client 7 "/"
              [Yield (JSON (JObj [("type", JStr "start_session")]), answering [])]
              init)
    = [EConnect model config; EWsSend 7 (session_status "connected")]
  ∧ 7 ∉ connected_clients
          (post (handle_client 7 "/"
                   [Yield (NotJSON "Expecting value: line 1 column 1 (char 0)", answering []);
                    Yield (JSON (JObj [("type", JStr "start_session")]), answering [])]
                   init)).
Proof.
  split_and!; [reflexivity | reflexivity | reflexivity |].
  unfold post. simpl.
  apply not_elem_of_difference. right. by apply elem_of_singleton.
Qed.

(** C8, amended: a message that is not JSON, or whose decoded value has no
    "type" to look up, makes its handling raise before anything is done; the
    exception ends the receive loop of that connection, so the messages after
    it are not handled; [handle_client] catches it, removes the connection
    from the registered clients and returns without raising. *)
Theorem C8_malformed_message_ends_connection
    (websocket : Conn) (path : string) (u : Env) (s : Sys)
    (message : Message) (e : Exn) (rest : Inbox) :
  json_loads message = Raise e
  ∨ (∃ data, json_loads message = Ret data ∧ getitem data "type" = Raise e) →
  handle_message websocket u message s = (Raise e, s, [])
  ∧ receive_loop websocket (Yield (message, u) :: rest) s = (Raise e, s, [])
  ∧ handle_client websocket path (Yield (message, u) :: rest) s
    = (Ret tt,
       {| session := session s;
          connected_clients := ({[websocket]} ∪ connected_clients s) ∖ {[websocket]};
          next_handle := next_handle s |},
       [])
  ∧ websocket ∉ connected_clients
                  (post (handle_client websocket path (Yield (message, u) :: rest) s)).
Proof.
  intros Hbad.
  assert (∀ s0, handle_message websocket u message s0 = (Raise e, s0, [])) as Hm.
  { intros s0. unfold handle_message. unfold_monad.
    by destruct Hbad as [-> | (data & -> & ->)]. }
  assert (∀ s0, receive_loop websocket (Yield (message, u) :: rest) s0
                = (Raise e, s0, [])) as Hloop.
  { intros s0. simpl. unfold mbind, M_bind. by rewrite Hm. }
  assert (handle_client websocket path (Yield (message, u) :: rest) s
          = (Ret tt,
             {| session := session s;
                connected_clients := ({[websocket]} ∪ connected_clients s) ∖ {[websocket]};
                next_handle := next_handle s |},
             [])) as Hclient.
  { unfold handle_client, add_client, discard_client, try_finally, try_except,
      mbind, M_bind.
    rewrite Hloop. by destruct (exn_class e). }
  split_and!; [done | done | done |].
  rewrite Hclient. unfold post. simpl.
  apply not_elem_of_difference. right. by apply elem_of_singleton.
Qed.

Lemma C8_witness :
  handle_message 7 (answering []) (JSON (JArr [JStr "video_frame"])) init
  = (Raise (mkExn TypeError "list indices must be integers or slices, not str"), init, [])
  ∧ events (handle_client 7 "/"
              [Yield (JSON (JArr [JStr "video_frame"]), answering []);
               Yield (JSON (JObj [("type", JStr "start_session")]), answering [])]
              init) = [].
Proof.
  pose proof (C8_malformed_message_ends_connection 7 "/" (answering []) init
                (JSON (JArr [JStr "video_frame"]))
                (mkExn TypeError "list indices must be integers or slices, not str")
                [Yield (JSON (JObj [("type", JStr "start_session")]), answering [])]
                (or_intror (ex_intro _ (JArr [JStr "video_frame"])
                              (conj eq_refl eq_refl))))
    as (Hmessage & _ & Hclient & _).
  split; [exact Hmessage |].
  rewrite Hclient. reflexivity.
Defined.

(** C9: ProcessVideoFrame and ProcessAudioChunk called with a session stored
    leave that handle (and the rest of the state) as it was, whether they
    return a result of their own type or the error-typed one; called without
    a session they leave the state StartSession leaves.  The stored handle
    changes in StartSession and CloseSession only. *)
Theorem C9_media_frame_session
    (u : Env) (s : Sys) (payload_data mime_type : JValue) :
  (∀ h, session s = Some h →
        session (post (process_video_frame u payload_data s)) = Some h
        ∧ session (post (process_audio_chunk u payload_data mime_type s)) = Some h)
  ∧ post (process_video_frame u payload_data s)
    = (if session s is Some _ then s else post (start_live_session u s))
  ∧ post (process_audio_chunk u payload_data mime_type s)
    = (if session s is Some _ then s else post (start_live_session u s)).
Proof.
  destruct (process_video_frame_shape u s payload_data) as (d & evs & -> & _).
  destruct (process_audio_chunk_shape u s payload_data mime_type)
    as (d' & evs' & -> & _).
  unfold post. simpl. split_and!; [| done | done].
  intros h Hs. by rewrite Hs.
Qed.

Lemma C9_witness :
  session (post (process_video_frame refusing (JStr "QUJD") (active 3))) = Some 3
  ∧ session (post (process_audio_chunk
                     (answering [Yield (text_response "clear" true)])
                     (JStr "QUJD") (JStr "audio/webm") (active 3))) = Some 3.
Proof.
  split.
  - exact (proj1 (proj1 (C9_media_frame_session refusing (active 3)
                           (JStr "QUJD") (JStr "audio/webm")) 3 eq_refl)).
  - exact (proj2 (proj1 (C9_media_frame_session
                           (answering [Yield (text_response "clear" true)])
                           (active 3) (JStr "QUJD") (JStr "audio/webm")) 3 eq_refl)).
Defined.




(** * Further properties *)

Section Codec.

Import Base64.

Local Open Scope N_scope.

(** A property of two byte values that holds on all 65536 pairs. *)
Lemma all_pairs (P : N → N → bool) :
  forallb (λ x, forallb (P x) (map N.of_nat (seq 0 256))) (map N.of_nat (seq 0 256))
  = true →
  ∀ x y, x < 256 → y < 256 → P x y = true.
Proof.
  intros Hall x y Hx Hy.
  assert (∀ z, z < 256 → In z (map N.of_nat (seq 0 256))) as Hin.
  { intros z Hz. apply in_map_iff. exists (N.to_nat z).
    split; [lia |]. apply in_seq. lia. }
  rewrite forallb_forall in Hall. specialize (Hall x (Hin x Hx)).
  rewrite forallb_forall in Hall. exact (Hall y (Hin y Hy)).
Qed.

Lemma to_N_lt (a : byte) : Byte.to_N a < 256.
Proof. pose proof (Byte.to_N_bounded a). lia. Qed.

Lemma byte_of_to_N (a : byte) : byte_of_N (Byte.to_N a) = a.
Proof.
  unfold byte_of_N. by rewrite <- ascii_of_byte_via_N, byte_of_ascii_of_byte.
Qed.

(** The digits are alphabet characters: not the pad, in ASCII, and of the
    value they stand for. *)
Lemma digit_facts (v : N) :
  v < 64 →
  Ascii.eqb (digit v) "="%char = false
  ∧ N.ltb (N_of_ascii (digit v)) 128 = true
  ∧ value (digit v) = Some v.
Proof.
  intros Hv.
  assert (forallb (λ n, negb (Ascii.eqb (digit n) "="%char)
                        && N.ltb (N_of_ascii (digit n)) 128
                        && bool_decide (value (digit n) = Some n))
            (map N.of_nat (seq 0 64)) = true) as Hall by (vm_compute; reflexivity).
  rewrite forallb_forall in Hall.
  assert (In v (map N.of_nat (seq 0 64))) as Hin.
  { apply in_map_iff. exists (N.to_nat v). split; [lia |]. apply in_seq. lia. }
  apply Hall in Hin. apply andb_prop in Hin as [Hin Hvalue].
  apply andb_prop in Hin as [Hpad Hascii].
  split_and!; [by apply negb_true_iff | done | by apply bool_decide_eq_true in Hvalue].
Qed.

Lemma scan_digit (v : N) (s : string) (d : Decoder) :
  v < 64 → scan (String (digit v) s) d = scan s (feed v d).
Proof.
  intros (Hpad & _ & Hvalue)%digit_facts. simpl. by rewrite Hpad, Hvalue.
Qed.

Lemma is_ascii_digit (v : N) (s : string) :
  v < 64 → is_ascii (String (digit v) s) = is_ascii s.
Proof.
  intros (_ & Hascii & _)%digit_facts. unfold is_ascii. simpl. by rewrite Hascii.
Qed.

(** The bit arithmetic of one quad, on byte values: the four digit values
    are below 64, and the decoder reassembles the three bytes. *)
Lemma quad_first (x y : N) :
  x < 256 → y < 256 →
  N.shiftr x 2 < 64
  ∧ N.lor (N.shiftl (N.land x 3) 4) (N.shiftr y 4) < 64
  ∧ N.shiftl (N.land x 3) 4 < 64
  ∧ N.lor (N.shiftl (N.shiftr x 2) 2)
      (N.shiftr (N.lor (N.shiftl (N.land x 3) 4) (N.shiftr y 4)) 4) = x
  ∧ N.lor (N.shiftl (N.shiftr x 2) 2) (N.shiftr (N.shiftl (N.land x 3) 4) 4) = x
  ∧ N.land (N.lor (N.shiftl (N.land x 3) 4) (N.shiftr y 4)) 15 = N.shiftr y 4.
Proof.
  intros Hx Hy.
  pose proof (all_pairs (λ x y,
    (N.shiftr x 2 <? 64)
    && (N.lor (N.shiftl (N.land x 3) 4) (N.shiftr y 4) <? 64)
    && (N.shiftl (N.land x 3) 4 <? 64)
    && (N.lor (N.shiftl (N.shiftr x 2) 2)
          (N.shiftr (N.lor (N.shiftl (N.land x 3) 4) (N.shiftr y 4)) 4) =? x)
    && (N.lor (N.shiftl (N.shiftr x 2) 2) (N.shiftr (N.shiftl (N.land x 3) 4) 4) =? x)
    && (N.land (N.lor (N.shiftl (N.land x 3) 4) (N.shiftr y 4)) 15 =? N.shiftr y 4))
    ltac:(vm_compute; reflexivity) x y Hx Hy) as H.
  repeat (apply andb_prop in H as [H ?]).
  split_and!; first [by apply N.ltb_lt | by apply N.eqb_eq].
Qed.

Lemma quad_second (y z : N) :
  y < 256 → z < 256 →
  N.lor (N.shiftl (N.land y 15) 2) (N.shiftr z 6) < 64
  ∧ N.shiftl (N.land y 15) 2 < 64
  ∧ N.land z 63 < 64
  ∧ N.lor (N.shiftl (N.shiftr y 4) 4)
      (N.shiftr (N.lor (N.shiftl (N.land y 15) 2) (N.shiftr z 6)) 2) = y
  ∧ N.lor (N.shiftl (N.shiftr y 4) 4) (N.shiftr (N.shiftl (N.land y 15) 2) 2) = y
  ∧ N.land (N.lor (N.shiftl (N.land y 15) 2) (N.shiftr z 6)) 3 = N.shiftr z 6
  ∧ N.lor (N.shiftl (N.shiftr z 6) 6) (N.land z 63) = z.
Proof.
  intros Hy Hz.
  pose proof (all_pairs (λ y z,
    (N.lor (N.shiftl (N.land y 15) 2) (N.shiftr z 6) <? 64)
    && (N.shiftl (N.land y 15) 2 <? 64)
    && (N.land z 63 <? 64)
    && (N.lor (N.shiftl (N.shiftr y 4) 4)
          (N.shiftr (N.lor (N.shiftl (N.land y 15) 2) (N.shiftr z 6)) 2) =? y)
    && (N.lor (N.shiftl (N.shiftr y 4) 4) (N.shiftr (N.shiftl (N.land y 15) 2) 2) =? y)
    && (N.land (N.lor (N.shiftl (N.land y 15) 2) (N.shiftr z 6)) 3 =? N.shiftr z 6)
    && (N.lor (N.shiftl (N.shiftr z 6) 6) (N.land z 63) =? z))
    ltac:(vm_compute; reflexivity) y z Hy Hz) as H.
  repeat (apply andb_prop in H as [H ?]).
  split_and!; first [by apply N.ltb_lt | by apply N.eqb_eq].
Qed.

(** Decoding what the encoder wrote, from the start of a quad. *)
Lemma scan_b64encode (bs : bytes) (d : Decoder) :
  quad_pos d = 0 → scan (b64encode bs) d = Ret (rev (written d) ++ bs).
Proof.
  revert d. induction bs as [bs IH] using (induction_ltof1 _ (@length byte)).
  unfold ltof in IH. intros [q l p w] Hq. simpl in Hq. subst q.
  destruct bs as [|a [|b [|c rest]]].
  - simpl. by rewrite app_nil_r.
  - destruct (quad_first (Byte.to_N a) 0) as (H1 & _ & H2 & _ & Ha & _);
      [apply to_N_lt | done |].
    change (b64encode [a]) with
      (String (digit (N.shiftr (Byte.to_N a) 2))
         (String (digit (N.shiftl (N.land (Byte.to_N a) 3) 4)) "==")).
    rewrite !scan_digit by done. unfold feed. simpl.
    by rewrite Ha, byte_of_to_N.
  - destruct (quad_first (Byte.to_N a) (Byte.to_N b)) as (H1 & H2 & _ & Ha & _ & Hl);
      [apply to_N_lt | apply to_N_lt |].
    destruct (quad_second (Byte.to_N b) 0) as (_ & H3 & _ & _ & Hb & _);
      [apply to_N_lt | done |].
    change (b64encode [a; b]) with
      (String (digit (N.shiftr (Byte.to_N a) 2))
         (String (digit (N.lor (N.shiftl (N.land (Byte.to_N a) 3) 4)
                           (N.shiftr (Byte.to_N b) 4)))
            (String (digit (N.shiftl (N.land (Byte.to_N b) 15) 2)) "="))).
    rewrite !scan_digit by done. unfold feed. simpl.
    rewrite Ha, Hl, Hb, !byte_of_to_N. by rewrite <- app_assoc.
  - destruct (quad_first (Byte.to_N a) (Byte.to_N b)) as (H1 & H2 & _ & Ha & _ & Hl);
      [apply to_N_lt | apply to_N_lt |].
    destruct (quad_second (Byte.to_N b) (Byte.to_N c))
      as (H3 & _ & H4 & Hb & _ & Hl' & Hc); [apply to_N_lt | apply to_N_lt |].
    change (b64encode (a :: b :: c :: rest)) with
      (String (digit (N.shiftr (Byte.to_N a) 2))
         (String (digit (N.lor (N.shiftl (N.land (Byte.to_N a) 3) 4)
                           (N.shiftr (Byte.to_N b) 4)))
            (String (digit (N.lor (N.shiftl (N.land (Byte.to_N b) 15) 2)
                              (N.shiftr (Byte.to_N c) 6)))
               (String (digit (N.land (Byte.to_N c) 63)) (b64encode rest))))).
    rewrite !scan_digit by done. unfold feed. simpl.
    rewrite IH by (simpl; done || lia). simpl.
    rewrite Ha, Hl, Hb, Hl', Hc, !byte_of_to_N. by rewrite <- !app_assoc.
Qed.

Lemma is_ascii_b64encode (bs : bytes) : is_ascii (b64encode bs) = true.
Proof.
  induction bs as [bs IH] using (induction_ltof1 _ (@length byte)).
  unfold ltof in IH.
  destruct bs as [|a [|b [|c rest]]].
  - done.
  - destruct (quad_first (Byte.to_N a) 0) as (H1 & _ & H2 & _);
      [apply to_N_lt | done |].
    change (b64encode [a]) with
      (String (digit (N.shiftr (Byte.to_N a) 2))
         (String (digit (N.shiftl (N.land (Byte.to_N a) 3) 4)) "==")).
    by rewrite !is_ascii_digit.
  - destruct (quad_first (Byte.to_N a) (Byte.to_N b)) as (H1 & H2 & _);
      [apply to_N_lt | apply to_N_lt |].
    destruct (quad_second (Byte.to_N b) 0) as (_ & H3 & _);
      [apply to_N_lt | done |].
    change (b64encode [a; b]) with
      (String (digit (N.shiftr (Byte.to_N a) 2))
         (String (digit (N.lor (N.shiftl (N.land (Byte.to_N a) 3) 4)
                           (N.shiftr (Byte.to_N b) 4)))
            (String (digit (N.shiftl (N.land (Byte.to_N b) 15) 2)) "="))).
    by rewrite !is_ascii_digit.
  - destruct (quad_first (Byte.to_N a) (Byte.to_N b)) as (H1 & H2 & _);
      [apply to_N_lt | apply to_N_lt |].
    destruct (quad_second (Byte.to_N b) (Byte.to_N c)) as (H3 & _ & H4 & _);
      [apply to_N_lt | apply to_N_lt |].
    change (b64encode (a :: b :: c :: rest)) with
      (String (digit (N.shiftr (Byte.to_N a) 2))
         (String (digit (N.lor (N.shiftl (N.land (Byte.to_N a) 3) 4)
                           (N.shiftr (Byte.to_N b) 4)))
            (String (digit (N.lor (N.shiftl (N.land (Byte.to_N b) 15) 2)
                              (N.shiftr (Byte.to_N c) 6)))
               (String (digit (N.land (Byte.to_N c) 63)) (b64encode rest))))).
    rewrite !is_ascii_digit by done. apply IH. simpl. lia.
Qed.

(** [b64decode] undoes [b64encode]. *)
Lemma b64decode_b64encode (bs : bytes) : b64decode (JStr (b64encode bs)) = Ret bs.
Proof.
  unfold b64decode. by rewrite is_ascii_b64encode, scan_b64encode.
Qed.

End Codec.

Section Calls.

Lemma sent_app evs1 evs2 : sent (evs1 ++ evs2) = sent evs1 ++ sent evs2.
Proof. unfold sent. apply omap_app. Qed.

Lemma received_app evs1 evs2 : received (evs1 ++ evs2) = received evs1 ++ received evs2.
Proof. unfold received. apply omap_app. Qed.

Lemma closed_app evs1 evs2 : closed (evs1 ++ evs2) = closed evs1 ++ closed evs2.
Proof. unfold closed. apply omap_app. Qed.

Lemma connects_app evs1 evs2 : connects (evs1 ++ evs2) = connects evs1 + connects evs2.
Proof. unfold connects. by rewrite omap_app, length_app. Qed.

Lemma closed_recv h rs : closed (map (ERecv h) rs) = [].
Proof. by induction rs. Qed.

Lemma connects_recv h rs : connects (map (ERecv h) rs) = 0.
Proof. by induction rs. Qed.

Lemma first_turn_all (rs : list LiveServerMessage) :
  Forall (λ r, is_turn_complete r = false) rs → first_turn rs = rs.
Proof. induction 1 as [|r rs Hr _ IH]; simpl; [done | by rewrite Hr, IH]. Qed.

Variable u : Env.

(** The calls of a media operation on a state with a session: nothing, or
    one send followed by the responses read, none of them when the send
    raised. *)
Lemma process_video_frame_calls s h frame_data :
  session s = Some h →
  events (process_video_frame u frame_data s) = []
  ∨ ∃ blob rs,
      events (process_video_frame u frame_data s)
      = ESend h (Image blob) :: map (ERecv h) rs
      ∧ (send_result u ≠ None → rs = []).
Proof.
  intros Hs. rewrite (process_video_frame_started u s h) by done.
  destruct (Base64.b64decode frame_data) as [bs|]; [| by left].
  right. exists (mkBlob bs (Some "image/jpeg")).
  destruct (send_result u); simpl; [by exists [] |].
  destruct (receive_video_run h (replies u) "" s) as (r & rs & ->).
  by exists rs.
Qed.

Lemma process_audio_chunk_calls s h audio_data mime_type :
  session s = Some h →
  events (process_audio_chunk u audio_data mime_type s) = []
  ∨ ∃ blob rs,
      events (process_audio_chunk u audio_data mime_type s)
      = ESend h (Audio blob) :: map (ERecv h) rs
      ∧ (send_result u ≠ None → rs = []).
Proof.
  intros Hs. rewrite (process_audio_chunk_started u s h) by done.
  destruct (Base64.b64decode audio_data) as [bs|]; [| by left].
  destruct (Blob_new u bs mime_type) as [blob|]; [| by left].
  right. exists blob.
  destruct (send_result u); simpl; [by exists [] |].
  destruct (receive_audio_run h (replies u) "" None s) as (r & rs & ->).
  by exists rs.
Qed.

(** A media operation never closes a session. *)
Lemma process_video_frame_closed s frame_data :
  closed (events (process_video_frame u frame_data s)) = [].
Proof.
  assert (∀ s' h, session s' = Some h →
            closed (events (process_video_frame u frame_data s')) = []) as Hstarted.
  { intros s' h Hs.
    destruct (process_video_frame_calls s' h frame_data Hs)
      as [-> | (blob & rs & -> & _)]; [done |].
    simpl. apply closed_recv. }
  destruct (session s) as [h|] eqn:Hs; [by eapply Hstarted |].
  rewrite (process_video_frame_unstarted u s) by done.
  destruct (connect_result u); [done |].
  unfold events at 1. simpl. by eapply Hstarted.
Qed.

Lemma process_audio_chunk_closed s audio_data mime_type :
  closed (events (process_audio_chunk u audio_data mime_type s)) = [].
Proof.
  assert (∀ s' h, session s' = Some h →
            closed (events (process_audio_chunk u audio_data mime_type s')) = [])
    as Hstarted.
  { intros s' h Hs.
    destruct (process_audio_chunk_calls s' h audio_data mime_type Hs)
      as [-> | (blob & rs & -> & _)]; [done |].
    simpl. apply closed_recv. }
  destruct (session s) as [h|] eqn:Hs; [by eapply Hstarted |].
  rewrite (process_audio_chunk_unstarted u s) by done.
  destruct (connect_result u); [done |].
  unfold events at 1. simpl. by eapply Hstarted.
Qed.

(** A media operation whose send is reached and succeeds, on a stream that
    yields [rs] and then ends, or goes on after a turn-complete response,
    when the parts of the responses read can be iterated: the whole run. *)
Lemma process_video_frame_drained s h frame_data bs rs tail :
  session s = Some h →
  Base64.b64decode frame_data = Ret bs →
  send_result u = None →
  replies u = map Yield rs ++ tail →
  existsb is_turn_complete rs = true ∨ tail = [] →
  Forall (λ r, iterable r = true) (first_turn rs) →
  process_video_frame u frame_data s
  = (Ret (analysis_dict (join (flat_map text_parts (first_turn rs))) (now u)), s,
     ESend h (Image (mkBlob bs (Some "image/jpeg")))
       :: map (ERecv h) (first_turn rs)).
Proof.
  intros Hs Hdecode Hsend Hreplies Hend Hit.
  rewrite (process_video_frame_started u s h), Hdecode, Hsend, Hreplies by done.
  simpl. by rewrite receive_video_yields.
Qed.

Lemma process_audio_chunk_drained s h audio_data mime_type bs blob rs tail :
  session s = Some h →
  Base64.b64decode audio_data = Ret bs →
  Blob_new u bs mime_type = Ret blob →
  send_result u = None →
  replies u = map Yield rs ++ tail →
  existsb is_turn_complete rs = true ∨ tail = [] →
  Forall (λ r, iterable r = true) (first_turn rs) →
  process_audio_chunk u audio_data mime_type s
  = (Ret (audio_analysis_dict
            (join (flat_map text_parts (first_turn rs)),
             audio_after None (first_turn rs)) (now u)), s,
     ESend h (Audio blob) :: map (ERecv h) (first_turn rs)).
Proof.
  intros Hs Hdecode Hblob Hsend Hreplies Hend Hit.
  rewrite (process_audio_chunk_started u s h), Hdecode, Hblob, Hsend, Hreplies
    by done.
  simpl. by rewrite receive_audio_yields.
Qed.

End Calls.

(** X1: a payload the client encoded with [b64encode] reaches the upstream
    byte for byte.  With a session stored, ProcessVideoFrame sends exactly
    one blob, with the bytes that were encoded and the type image/jpeg, and
    ProcessAudioChunk exactly one with those bytes and the given type. *)
Theorem X1_encoded_payload_is_sent_intact
    (u : Env) (s : Sys) (h : Handle) (bs : bytes) (mime : string) :
  session s = Some h →
  sent (events (process_video_frame u (JStr (Base64.b64encode bs)) s))
  = [(h, Image (mkBlob bs (Some "image/jpeg")))]
  ∧ sent (events (process_audio_chunk u (JStr (Base64.b64encode bs)) (JStr mime) s))
    = [(h, Audio (mkBlob bs (Some mime)))].
Proof.
  intros Hs.
  rewrite (process_video_frame_started u s h), (process_audio_chunk_started u s h)
    by done.
  rewrite b64decode_b64encode. simpl.
  destruct (send_result u); simpl; [done |].
  destruct (receive_video_run h (replies u) "" s) as (r & rs & ->).
  destruct (receive_audio_run h (replies u) "" None s) as (r' & rs' & ->).
  unfold events. simpl. by rewrite !sent_recv.
Qed.

Lemma X1_witness :
  sent (events (process_video_frame (answering [])
                  (JStr (Base64.b64encode [xff; x00; x7f]%byte)) (active 2)))
  = [(2, Image (mkBlob [xff; x00; x7f]%byte (Some "image/jpeg")))]
  ∧ sent (events (process_audio_chunk (answering [])
                    (JStr (Base64.b64encode [xff; x00; x7f]%byte))
                    (JStr "audio/ogg") (active 2)))
    = [(2, Audio (mkBlob [xff; x00; x7f]%byte (Some "audio/ogg")))].
Proof.
  exact (X1_encoded_payload_is_sent_intact (answering []) (active 2) 2
           [xff; x00; x7f]%byte "audio/ogg" eq_refl).
Defined.

(** X2: when ProcessAudioChunk drains a turn whose responses all have parts
    that can be iterated, the audio_response it returns decodes, with
    [b64decode], to the bytes of the last payload of the turn. *)
Theorem X2_audio_response_decodes_to_payload
    (u : Env) (s : Sys) (h : Handle) (audio_data mime_type : JValue)
    (bs : bytes) (blob : Blob) (rs : list LiveServerMessage)
    (fin : LiveServerMessage) (tail : list (Step LiveServerMessage)) (p : bytes) :
  session s = Some h →
  Base64.b64decode audio_data = Ret bs →
  Blob_new u bs mime_type = Ret blob →
  send_result u = None →
  replies u = map Yield rs ++ Yield fin :: tail →
  Forall (λ r, is_turn_complete r = false) rs →
  is_turn_complete fin = true →
  Forall (λ r, iterable r = true) (rs ++ [fin]) →
  last (omap payload (rs ++ [fin])) = Some p →
  ∃ d a, result (process_audio_chunk u audio_data mime_type s) = Ret d
         ∧ dict_get "audio_response" d = Some a
         ∧ Base64.b64decode a = Ret p.
Proof.
  intros Hs Hdecode Hblob Hsend Hreplies Hrs Hfin Hit Hlast.
  rewrite yield_snoc in Hreplies.
  rewrite (process_audio_chunk_drained u s h _ _ bs blob (rs ++ [fin]) tail)
    by first [done | left; by apply existsb_snoc | by rewrite first_turn_snoc].
  rewrite first_turn_snoc by done.
  unfold audio_after. rewrite Hlast.
  eexists _, _. split; [reflexivity |]. split; [reflexivity |].
  apply b64decode_b64encode.
Qed.

Lemma X2_witness :
  ∃ d a, result (process_audio_chunk
                   (answering [Yield (data_response [x01; x02]%byte);
                               Yield (data_response [xfe; xff; x00; x10]%byte);
                               Yield (text_response "clear" true)])
                   (JStr "QUJD") (JStr "audio/webm") (active 0)) = Ret d
         ∧ dict_get "audio_response" d = Some a
         ∧ Base64.b64decode a = Ret [xfe; xff; x00; x10]%byte.
Proof.
  apply (X2_audio_response_decodes_to_payload
           (answering [Yield (data_response [x01; x02]%byte);
                       Yield (data_response [xfe; xff; x00; x10]%byte);
                       Yield (text_response "clear" true)])
           (active 0) 0 (JStr "QUJD") (JStr "audio/webm")
           ["A"; "B"; "C"]%byte (mkBlob ["A"; "B"; "C"]%byte (Some "audio/webm"))
           [data_response [x01; x02]%byte; data_response [xfe; xff; x00; x10]%byte]
           (text_response "clear" true) []).
  - reflexivity.
  - reflexivity.
  - reflexivity.
  - reflexivity.
  - reflexivity.
  - repeat constructor.
  - reflexivity.
  - repeat constructor.
  - reflexivity.
Defined.

(** X3: a payload that [b64decode] rejects is answered with the error-typed
    result carrying the decoder's message, and nothing is sent upstream or
    read from it; but when no session was stored, the session has been
    started all the same, and stays stored. *)
Theorem X3_undecodable_payload_sends_nothing
    (u : Env) (s : Sys) (payload_data mime_type : JValue) (e : Exn) :
  (session s = None → connect_result u = None) →
  Base64.b64decode payload_data = Raise e →
  process_video_frame u payload_data s
  = (Ret [("type", JStr "error"); ("content", JStr (str e));
          ("timestamp", JNum (now u))],
     (if session s is Some _ then s else started s),
     (if session s is Some _ then [] else [EConnect model config]))
  ∧ process_audio_chunk u payload_data mime_type s
    = (Ret [("type", JStr "error"); ("content", JStr (str e));
            ("timestamp", JNum (now u))],
       (if session s is Some _ then s else started s),
       (if session s is Some _ then [] else [EConnect model config])).
Proof.
  intros Hsession Hdecode.
  destruct (session s) as [h|] eqn:Hs.
  - by rewrite (process_video_frame_started u s h),
      (process_audio_chunk_started u s h), Hdecode.
  - rewrite (process_video_frame_unstarted u s),
      (process_audio_chunk_unstarted u s), Hsession by done.
    by rewrite (process_video_frame_started u (started s) (next_handle s)),
      (process_audio_chunk_started u (started s) (next_handle s)), Hdecode.
Qed.

Lemma X3_witness :
  process_video_frame (answering []) (JStr "QUJDR") init
  = (Ret [("type", JStr "error");
          ("content", JStr "Invalid base64-encoded string: number of data characters (5) cannot be 1 more than a multiple of 4");
          ("timestamp", JNum 1000)],
     started init, [EConnect model config])
  ∧ process_audio_chunk (answering []) (JNum 5) (JStr "audio/webm") (active 4)
    = (Ret [("type", JStr "error");
            ("content", JStr "argument should be a bytes-like object or ASCII string, not 'int'");
            ("timestamp", JNum 1000)],
       active 4, []).
Proof.
  split.
  - exact (proj1 (X3_undecodable_payload_sends_nothing (answering []) init
                    (JStr "QUJDR") JNull _ (λ _, eq_refl) eq_refl)).
  - exact (proj2 (X3_undecodable_payload_sends_nothing (answering []) (active 4)
                    (JNum 5) (JStr "audio/webm") _ (λ _, eq_refl) eq_refl)).
Defined.

(** X4: when the upstream stream ends without a turn-complete response,
    having yielded only responses with parts that can be iterated, the drain
    stops there and the call succeeds: all responses are read, the content is
    the text of all of them (the empty string for a stream that yields
    nothing) and, for audio, audio_response is the last payload. *)
Theorem X4_stream_end_without_turn_complete
    (u : Env) (s : Sys) (h : Handle) (payload_data mime_type : JValue)
    (bs : bytes) (blob : Blob) (rs : list LiveServerMessage) :
  session s = Some h →
  Base64.b64decode payload_data = Ret bs →
  Blob_new u bs mime_type = Ret blob →
  send_result u = None →
  replies u = map Yield rs →
  Forall (λ r, is_turn_complete r = false) rs →
  Forall (λ r, iterable r = true) rs →
  process_video_frame u payload_data s
  = (Ret [("type", JStr "analysis");
          ("content", JStr (join (flat_map text_parts rs)));
          ("timestamp", JNum (now u))],
     s, ESend h (Image (mkBlob bs (Some "image/jpeg"))) :: map (ERecv h) rs)
  ∧ process_audio_chunk u payload_data mime_type s
    = (Ret [("type", JStr "audio_analysis");
            ("content", JStr (join (flat_map text_parts rs)));
            ("audio_response",
             match last (omap payload rs) with
             | Some p => JStr (Base64.b64encode p)
             | None => JNull
             end);
            ("timestamp", JNum (now u))],
       s, ESend h (Audio blob) :: map (ERecv h) rs).
Proof.
  intros Hs Hdecode Hblob Hsend Hreplies Hrs Hit.
  rewrite <- (app_nil_r (map Yield rs)) in Hreplies.
  rewrite (process_video_frame_drained u s h _ bs rs []),
    (process_audio_chunk_drained u s h _ _ bs blob rs [])
    by (auto; by rewrite first_turn_all).
  rewrite first_turn_all by done.
  unfold analysis_dict, audio_analysis_dict, audio_after. simpl.
  by destruct (last _).
Qed.

Lemma X4_witness :
  process_video_frame (answering []) (JStr "QUJD") (active 0)
  = (Ret [("type", JStr "analysis"); ("content", JStr ""); ("timestamp", JNum 1000)],
     active 0, [ESend 0 (Image (mkBlob ["A"; "B"; "C"]%byte (Some "image/jpeg")))])
  ∧ result (process_audio_chunk
              (answering [Yield (text_response "still " false);
                          Yield (data_response ["A"]%byte);
                          Yield (text_response "quiet" false)])
              (JStr "QUJD") (JStr "audio/webm") (active 0))
    = Ret [("type", JStr "audio_analysis"); ("content", JStr "still quiet");
           ("audio_response", JStr "QQ=="); ("timestamp", JNum 1000)].
Proof.
  split.
  - exact (proj1 (X4_stream_end_without_turn_complete (answering []) (active 0) 0
                    (JStr "QUJD") (JStr "audio/webm") ["A"; "B"; "C"]%byte
                    (mkBlob ["A"; "B"; "C"]%byte (Some "audio/webm")) []
                    eq_refl eq_refl eq_refl eq_refl eq_refl ltac:(constructor)
                    ltac:(constructor))).
  - exact (f_equal result
             (proj2 (X4_stream_end_without_turn_complete
                       (answering [Yield (text_response "still " false);
                                   Yield (data_response ["A"]%byte);
                                   Yield (text_response "quiet" false)])
                       (active 0) 0
                       (JStr "QUJD") (JStr "audio/webm") ["A"; "B"; "C"]%byte
                       (mkBlob ["A"; "B"; "C"]%byte (Some "audio/webm"))
                       [text_response "still " false; data_response ["A"]%byte;
                        text_response "quiet" false]
                       eq_refl eq_refl eq_refl eq_refl eq_refl
                       ltac:(repeat constructor) ltac:(repeat constructor)))).
Defined.

(** X5: with a session stored, a media operation never connects and never
    closes; it sends at most one payload, and when that send raises it reads
    nothing from the stream. *)
Theorem X5_media_call_budget
    (u : Env) (s : Sys) (h : Handle) (payload_data mime_type : JValue) :
  session s = Some h →
  (connects (events (process_video_frame u payload_data s)) = 0
   ∧ closed (events (process_video_frame u payload_data s)) = []
   ∧ (length (sent (events (process_video_frame u payload_data s))) ≤ 1)%nat
   ∧ (send_result u ≠ None →
      received (events (process_video_frame u payload_data s)) = []))
  ∧ (connects (events (process_audio_chunk u payload_data mime_type s)) = 0
     ∧ closed (events (process_audio_chunk u payload_data mime_type s)) = []
     ∧ (length (sent (events (process_audio_chunk u payload_data mime_type s))) ≤ 1)%nat
     ∧ (send_result u ≠ None →
        received (events (process_audio_chunk u payload_data mime_type s)) = [])).
Proof.
  intros Hs. split.
  - destruct (process_video_frame_calls u s h payload_data Hs)
      as [-> | (blob & rs & -> & Hraise)]; [by repeat split; simpl; auto |].
    split_and!; simpl.
    + unfold connects. simpl. apply (connects_recv h rs).
    + apply closed_recv.
    + fold (sent (map (ERecv h) rs)). by rewrite sent_recv.
    + intros Hne. by rewrite (Hraise Hne).
  - destruct (process_audio_chunk_calls u s h payload_data mime_type Hs)
      as [-> | (blob & rs & -> & Hraise)]; [by repeat split; simpl; auto |].
    split_and!; simpl.
    + unfold connects. simpl. apply (connects_recv h rs).
    + apply closed_recv.
    + fold (sent (map (ERecv h) rs)). by rewrite sent_recv.
    + intros Hne. by rewrite (Hraise Hne).
Qed.

Lemma X5_witness :
  received (events (process_video_frame refusing (JStr "QUJD") (active 1))) = []
  ∧ closed (events (process_audio_chunk
                      (answering [Yield (text_response "clear" true)])
                      (JStr "QUJD") (JStr "audio/webm") (active 1))) = [].
Proof.
  split.
  - apply (X5_media_call_budget refusing (active 1) 1 (JStr "QUJD")
             (JStr "audio/webm") eq_refl).
    discriminate.
  - apply (X5_media_call_budget (answering [Yield (text_response "clear" true)])
             (active 1) 1 (JStr "QUJD") (JStr "audio/webm") eq_refl).
Defined.

Section Connection.

Variable websocket : Conn.

(** What handling one message can do: it keeps the registered clients,
    writes at most one envelope, on its own websocket, and, unless it is a
    stop_session message, closes no session and keeps a stored one. *)
Lemma handle_message_shape u message s :
  ∃ r s' evs,
    handle_message websocket u message s = (r, s', evs)
    ∧ connected_clients s' = connected_clients s
    ∧ (ws_sent evs = [] ∨ ∃ d, ws_sent evs = [(websocket, d)])
    ∧ (is_stop_session message = false →
       closed evs = [] ∧ (is_Some (session s) → is_Some (session s'))).
Proof.
  assert (∀ d r (s' : Sys) evs,
    ws_send u websocket d s' = (r, s', [EWsSend websocket d]) →
    ws_sent evs = [] →
    ws_sent (evs ++ [EWsSend websocket d]) = [(websocket, d)]) as Hone.
  { intros d r s' evs _ Hevs. by rewrite ws_sent_app, Hevs. }
  assert (connected_clients (if session s is Some _ then s
                             else post (start_live_session u s))
          = connected_clients s
          ∧ (is_Some (session s) →
             is_Some (session (if session s is Some _ then s
                               else post (start_live_session u s))))) as [Hcc Hkeep].
  { rewrite start_live_session_run.
    destruct (session s) eqn:Hs; [by rewrite Hs |].
    split; [by destruct (connect_result u) | by intros []]. }
  unfold is_stop_session, message_type, handle_message. unfold_monad.
  destruct message as [err | v]; simpl; [by eauto 10 |].
  destruct (getitem v "type") as [type|] eqn:Htype; simpl; [| by eauto 10].
  destruct (py_eq_str type "video_frame") eqn:Hv; simpl.
  { destruct (getitem v "data") as [x|]; simpl; [| by eauto 10].
    pose proof (process_video_frame_closed u s x) as Hclosed.
    destruct (process_video_frame_shape u s x) as (d & evs & Hrun & _ & _ & Hevs).
    rewrite Hrun in *. unfold events in Hclosed. simpl in Hclosed.
    destruct (ws_send_run websocket u d (if session s is Some _ then s
                else post (start_live_session u s))) as (r & Hsend).
    rewrite Hsend. eexists _, _, _. split; [reflexivity |].
    split_and!; [done | right; eauto | intros _].
    split; [by rewrite closed_app, Hclosed | done]. }
  destruct (py_eq_str type "audio_chunk") eqn:Ha; simpl.
  { destruct (getitem v "data") as [x|]; simpl; [| by eauto 10].
    destruct (get_default v "mime_type" (JStr "audio/webm")) as [m|]; simpl;
      [| by eauto 10].
    pose proof (process_audio_chunk_closed u s x m) as Hclosed.
    destruct (process_audio_chunk_shape u s x m) as (d & evs & Hrun & _ & _ & Hevs).
    rewrite Hrun in *. unfold events in Hclosed. simpl in Hclosed.
    destruct (ws_send_run websocket u d (if session s is Some _ then s
                else post (start_live_session u s))) as (r & Hsend).
    rewrite Hsend. eexists _, _, _. split; [reflexivity |].
    split_and!; [done | right; eauto | intros _].
    split; [by rewrite closed_app, Hclosed | done]. }
  destruct (py_eq_str type "start_session") eqn:Hstart; simpl.
  { rewrite start_live_session_run.
    destruct (connect_result u); simpl.
    - destruct (ws_send_run websocket u (session_status "error") s) as (r & ->).
      eexists _, _, _. split; [reflexivity |]. split_and!; simpl; eauto.
    - destruct (ws_send_run websocket u (session_status "connected") (started s))
        as (r & ->).
      eexists _, _, _. split; [reflexivity |]. split_and!; simpl; eauto. }
  destruct (py_eq_str type "stop_session") eqn:Hstop; simpl; [| by eauto 10].
  unfold close_session. run.
  destruct (session s) as [h|]; simpl.
  - destruct (ws_send_result u); simpl; eexists _, _, _;
      (split; [reflexivity |]); split_and!; simpl; eauto; done.
  - destruct (ws_send_result u); simpl; eexists _, _, _;
      (split; [reflexivity |]); split_and!; simpl; eauto; done.
Qed.

(** The same over the receive loop of a connection. *)
Lemma receive_loop_shape inbox s :
  ∃ r s' evs,
    receive_loop websocket inbox s = (r, s', evs)
    ∧ connected_clients s' = connected_clients s
    ∧ Forall (λ cd, cd.1 = websocket) (ws_sent evs)
    ∧ (length (ws_sent evs) ≤ length inbox)%nat
    ∧ (Forall (λ step, if step is Yield (message, _)
                       then is_stop_session message = false else True) inbox →
       closed evs = [] ∧ (is_Some (session s) → is_Some (session s'))).
Proof.
  revert s. induction inbox as [|[[message u]|e] inbox IH]; intros s; simpl.
  - eexists _, _, _. split; [reflexivity |]. split_and!; simpl; auto.
  - destruct (handle_message_shape u message s)
      as (r & s1 & evs1 & Hm & Hcc1 & Hws1 & Hstop1).
    unfold mbind, M_bind. rewrite Hm.
    assert (Forall (λ cd, cd.1 = websocket) (ws_sent evs1)
            ∧ (length (ws_sent evs1) ≤ 1)%nat) as [Hown1 Hlen1].
    { destruct Hws1 as [-> | (d & ->)]; simpl; split; auto. }
    destruct r as [[]|e].
    + destruct (IH s1) as (r2 & s2 & evs2 & -> & Hcc2 & Hown2 & Hlen2 & Hstop2).
      eexists _, _, _. split; [reflexivity |].
      rewrite ws_sent_app, closed_app, length_app.
      split_and!; [congruence | by apply Forall_app | lia |].
      intros [Hhead Htail]%Forall_cons.
      destruct (Hstop1 Hhead) as [-> Hkeep1].
      destruct (Hstop2 Htail) as [-> Hkeep2]. auto.
    + eexists _, _, _. split; [reflexivity |].
      split_and!; [done | done | lia |].
      intros [Hhead _]%Forall_cons. by apply Hstop1.
  - eexists _, _, _. split; [reflexivity |].
    split_and!; simpl; auto. lia.
Qed.

(** [handle_client] is the receive loop between the registration and the
    removal of the websocket, with whatever the loop raised swallowed. *)
Lemma handle_client_run path inbox s :
  ∃ r s' evs,
    receive_loop websocket inbox (post (add_client websocket s)) = (r, s', evs)
    ∧ handle_client websocket path inbox s
      = (Ret tt, post (discard_client websocket s'), evs).
Proof.
  unfold handle_client, try_finally, try_except, mbind, M_bind, add_client at 2.
  unfold post at 1. simpl.
  destruct (receive_loop websocket inbox _) as [[r s'] evs] eqn:Hloop.
  exists r, s', evs. split; [done |].
  destruct r as [[]|e]; simpl; [by rewrite app_nil_r |].
  destruct (exn_class e); simpl; by rewrite !app_nil_r.
Qed.

(** A message that is neither a start_session nor a stop_session message
    leaves a stored session as it is. *)
Lemma handle_message_same_session u message s h :
  session s = Some h →
  is_stop_session message = false →
  is_start_session message = false →
  session (post (handle_message websocket u message s)) = Some h.
Proof.
  intros Hs.
  unfold is_stop_session, is_start_session, message_type, handle_message, post.
  unfold_monad.
  destruct message as [err | v]; simpl; [done |].
  destruct (getitem v "type") as [type|] eqn:Htype; simpl; [| done].
  intros Hstop Hstart. rewrite Hstop, Hstart.
  destruct (py_eq_str type "video_frame") eqn:Hv; simpl.
  { destruct (getitem v "data") as [x|]; simpl; [| done].
    destruct (process_video_frame_shape u s x) as (d & evs & -> & _).
    rewrite Hs.
    by destruct (ws_send_run websocket u d s) as (r & ->). }
  destruct (py_eq_str type "audio_chunk") eqn:Ha; simpl; [| done].
  destruct (getitem v "data") as [x|]; simpl; [| done].
  destruct (get_default v "mime_type" (JStr "audio/webm")) as [m|]; simpl; [| done].
  destruct (process_audio_chunk_shape u s x m) as (d & evs & -> & _).
  rewrite Hs.
  by destruct (ws_send_run websocket u d s) as (r & ->).
Qed.

Lemma receive_loop_same_session inbox s h :
  session s = Some h →
  Forall (λ step, if step is Yield (message, _)
                  then is_stop_session message = false else True) inbox →
  Forall (λ step, if step is Yield (message, _)
                  then is_start_session message = false else True) inbox →
  session (post (receive_loop websocket inbox s)) = Some h.
Proof.
  revert s. induction inbox as [|[[message u]|e] inbox IH]; intros s Hs Hstop Hstart;
    simpl; [done | | done].
  apply Forall_cons in Hstop as [Hstop Hstops].
  apply Forall_cons in Hstart as [Hstart Hstarts].
  pose proof (handle_message_same_session u message s h Hs Hstop Hstart) as Hm.
  unfold mbind, M_bind.
  destruct (handle_message websocket u message s) as [[[[]|e] s1] evs1]; [| done].
  specialize (IH s1 Hm Hstops Hstarts).
  by destruct (receive_loop websocket inbox s1) as [[r2 s2] evs2].
Qed.

End Connection.

(** X6: a video_frame or audio_chunk message without a "data" item raises
    KeyError('data') before anything is started or sent; no envelope is
    written, and the exception ends the connection: the messages after it
    are not handled and the websocket is removed from the clients. *)
Theorem X6_media_message_without_data
    (websocket : Conn) (path : string) (u : Env) (s : Sys) (d : Dict)
    (type : JValue) (rest : Inbox) :
  dict_get "type" d = Some type →
  py_eq_str type "video_frame" || py_eq_str type "audio_chunk" = true →
  dict_get "data" d = None →
  handle_message websocket u (JSON (JObj d)) s
  = (Raise (mkExn KeyError "'data'"), s, [])
  ∧ handle_client websocket path (Yield (JSON (JObj d), u) :: rest) s
    = (Ret tt,
       {| session := session s;
          connected_clients := ({[websocket]} ∪ connected_clients s) ∖ {[websocket]};
          next_handle := next_handle s |},
       []).
Proof.
  intros Htype Hmedia Hdata.
  assert (∀ s0, handle_message websocket u (JSON (JObj d)) s0
                = (Raise (mkExn KeyError "'data'"), s0, [])) as Hm.
  { intros s0. unfold handle_message. unfold_monad. simpl. rewrite Htype.
    destruct (py_eq_str type "video_frame"); simpl; [by rewrite Hdata |].
    destruct (py_eq_str type "audio_chunk"); simpl; [by rewrite Hdata | done]. }
  split; [done |].
  unfold handle_client, add_client, discard_client, try_finally, try_except.
  simpl. unfold mbind, M_bind. by rewrite Hm.
Qed.

Lemma X6_witness :
  handle_message 7 (answering []) (JSON (JObj [("type", JStr "audio_chunk")])) init
  = (Raise (mkExn KeyError "'data'"), init, []).
Proof.
  exact (proj1 (X6_media_message_without_data 7 "/" (answering []) init
                  [("type", JStr "audio_chunk")] (JStr "audio_chunk") []
                  eq_refl eq_refl eq_refl)).
Defined.

(** X7: an audio_chunk message without a "mime_type" item is sent upstream
    with the type audio/webm, and one whose "mime_type" is a string with that
    string; the bytes are the decoded "data". *)
Theorem X7_audio_chunk_mime_type
    (websocket : Conn) (u : Env) (s : Sys) (h : Handle) (d : Dict)
    (x : JValue) (bs : bytes) (mime : string) :
  session s = Some h →
  dict_get "type" d = Some (JStr "audio_chunk") →
  dict_get "data" d = Some x →
  Base64.b64decode x = Ret bs →
  dict_get "mime_type" d = None ∧ mime = "audio/webm"
  ∨ dict_get "mime_type" d = Some (JStr mime) →
  sent (events (handle_message websocket u (JSON (JObj d)) s))
  = [(h, Audio (mkBlob bs (Some mime)))].
Proof.
  intros Hs Htype Hdata Hdecode Hmime.
  assert (default (JStr "audio/webm") (dict_get "mime_type" d) = JStr mime) as Hm.
  { by destruct Hmime as [[-> ->] | ->]. }
  unfold handle_message, events. unfold_monad. simpl.
  rewrite Htype, Hdata, Hm. simpl.
  rewrite (process_audio_chunk_started u s h), Hdecode by done. simpl.
  destruct (send_result u); simpl.
  - by destruct (ws_send_run websocket u (error_dict e (now u)) s) as (r & ->).
  - destruct (receive_audio_run h (replies u) "" None s) as (r & rs & ->).
    unfold result, events. simpl.
    destruct (ws_send_run websocket u
                match r with
                | Ret reply => audio_analysis_dict reply (now u)
                | Raise e => error_dict e (now u)
                end s) as (r' & ->).
    simpl. fold (sent (map (ERecv h) rs ++ [EWsSend websocket
      match r with
      | Ret reply => audio_analysis_dict reply (now u)
      | Raise e => error_dict e (now u)
      end])).
    by rewrite sent_app, sent_recv.
Qed.

Lemma X7_witness :
  sent (events (handle_message 7 (answering [Yield (text_response "clear" true)])
                  (JSON (JObj [("type", JStr "audio_chunk"); ("data", JStr "QUJD")]))
                  (active 0)))
  = [(0, Audio (mkBlob ["A"; "B"; "C"]%byte (Some "audio/webm")))]
  ∧ sent (events (handle_message 7 (answering [Yield (text_response "clear" true)])
                    (JSON (JObj [("type", JStr "audio_chunk"); ("data", JStr "QUJD");
                                 ("mime_type", JStr "audio/pcm")]))
                    (active 0)))
    = [(0, Audio (mkBlob ["A"; "B"; "C"]%byte (Some "audio/pcm")))].
Proof.
  split.
  - exact (X7_audio_chunk_mime_type 7 (answering [Yield (text_response "clear" true)])
             (active 0) 0 [("type", JStr "audio_chunk"); ("data", JStr "QUJD")]
             (JStr "QUJD") ["A"; "B"; "C"]%byte "audio/webm"
             eq_refl eq_refl eq_refl eq_refl (or_introl (conj eq_refl eq_refl))).
  - exact (X7_audio_chunk_mime_type 7 (answering [Yield (text_response "clear" true)])
             (active 0) 0
             [("type", JStr "audio_chunk"); ("data", JStr "QUJD");
              ("mime_type", JStr "audio/pcm")]
             (JStr "QUJD") ["A"; "B"; "C"]%byte "audio/pcm"
             eq_refl eq_refl eq_refl eq_refl (or_intror eq_refl)).
Defined.

(** X8: whatever arrives on a connection (messages of any kind, a closed
    connection, failing upstream calls, failing websocket writes),
    [handle_client] returns without raising, and on return exactly its own
    websocket has been removed from the registered clients: the others are
    as they were. *)
Theorem X8_handle_client_returns_and_unregisters
    (websocket : Conn) (path : string) (inbox : Inbox) (s : Sys) :
  result (handle_client websocket path inbox s) = Ret tt
  ∧ connected_clients (post (handle_client websocket path inbox s))
    = connected_clients s ∖ {[websocket]}.
Proof.
  destruct (handle_client_run websocket path inbox s) as (r & s' & evs & Hloop & ->).
  destruct (receive_loop_shape websocket inbox (post (add_client websocket s)))
    as (r0 & s0 & evs0 & Hloop' & Hcc & _).
  rewrite Hloop in Hloop'. injection Hloop' as <- <- <-.
  split; [done |].
  unfold post, discard_client, add_client in *. simpl in *. rewrite Hcc.
  apply set_eq. intros c.
  rewrite !elem_of_difference, elem_of_union. tauto.
Qed.

(** X9: during a connection, envelopes are written to the websocket of that
    connection only, and there are at most as many of them as messages
    arrived. *)
Theorem X9_envelopes_only_to_own_websocket
    (websocket : Conn) (path : string) (inbox : Inbox) (s : Sys) :
  Forall (λ cd, cd.1 = websocket)
    (ws_sent (events (handle_client websocket path inbox s)))
  ∧ (length (ws_sent (events (handle_client websocket path inbox s)))
     ≤ length inbox)%nat.
Proof.
  destruct (handle_client_run websocket path inbox s) as (r & s' & evs & Hloop & ->).
  destruct (receive_loop_shape websocket inbox (post (add_client websocket s)))
    as (r0 & s0 & evs0 & Hloop' & _ & Hown & Hlen & _).
  rewrite Hloop in Hloop'. by injection Hloop' as <- <- <-.
Qed.

(** X10: the upstream session outlives the connection.  When no message of
    a connection is a stop_session message, nothing is closed upstream during
    it, however it ends, and if a session was stored when it began, a session
    is stored when [handle_client] returns.  It is the same session when the
    connection carried no start_session message either; a start_session
    message replaces it by the one it connects. *)
Theorem X10_session_outlives_connection
    (websocket : Conn) (path : string) (inbox : Inbox) (s : Sys) :
  Forall (λ step, if step is Yield (message, _)
                  then is_stop_session message = false else True) inbox →
  closed (events (handle_client websocket path inbox s)) = []
  ∧ (is_Some (session s) →
     is_Some (session (post (handle_client websocket path inbox s))))
  ∧ (Forall (λ step, if step is Yield (message, _)
                     then is_start_session message = false else True) inbox →
     ∀ h, session s = Some h →
          session (post (handle_client websocket path inbox s)) = Some h).
Proof.
  intros Hstop.
  destruct (handle_client_run websocket path inbox s) as (r & s' & evs & Hloop & ->).
  destruct (receive_loop_shape websocket inbox (post (add_client websocket s)))
    as (r0 & s0 & evs0 & Hloop' & _ & _ & _ & Hkeep).
  rewrite Hloop in Hloop'. injection Hloop' as <- <- <-.
  destruct (Hkeep Hstop) as [Hclosed Hsession].
  split_and!; [done | done |].
  intros Hstart h Hs.
  pose proof (receive_loop_same_session websocket inbox
                (post (add_client websocket s)) h Hs Hstop Hstart) as Hsame.
  rewrite Hloop in Hsame. done.
Qed.

Lemma X10_witness :
  closed (events (handle_client 7 "/"
                    [Yield (JSON (JObj [("type", JStr "video_frame");
                                        ("data", JStr "QUJD")]),
                            answering [Yield (text_response "clear" true)]);
                     Fail reset]
                    (active 0))) = []
  ∧ session (post (handle_client 7 "/"
                     [Yield (JSON (JObj [("type", JStr "video_frame");
                                         ("data", JStr "QUJD")]),
                             answering [Yield (text_response "clear" true)]);
                      Fail reset]
                     (active 0))) = Some 0
  ∧ is_Some (session (post (handle_client 7 "/"
                              [Yield (JSON (JObj [("type", JStr "start_session")]),
                                      answering [])]
                              (active 0)))).
Proof.
  pose proof (X10_session_outlives_connection 7 "/"
                [Yield (JSON (JObj [("type", JStr "video_frame");
                                    ("data", JStr "QUJD")]),
                        answering [Yield (text_response "clear" true)]);
                 Fail reset]
                (active 0)
                ltac:(repeat constructor)) as (Hclosed & _ & Hsame).
  pose proof (X10_session_outlives_connection 7 "/"
                [Yield (JSON (JObj [("type", JStr "start_session")]), answering [])]
                (active 0)
                ltac:(repeat constructor)) as (_ & Hsome & _).
  split; [exact Hclosed |].
  split; [exact (Hsame ltac:(repeat constructor) 0 eq_refl) |].
  apply Hsome. by exists 0.
Defined.

(** X11: the replies to the control messages.  A start_session message
    always connects, also when a session is stored, and is answered
    "connected" when the connect succeeded (the new session is then stored)
    and "error" when it raised (the state is then unchanged).  A stop_session
    message is answered "disconnected" whether or not a session was stored;
    the stored session, if any, is closed and the handle cleared. *)
Theorem X11_session_status_replies
    (websocket : Conn) (u : Env) (s : Sys) (d : Dict) :
  (dict_get "type" d = Some (JStr "start_session") →
   events (handle_message websocket u (JSON (JObj d)) s)
   = [EConnect model config;
      EWsSend websocket
        [("type", JStr "session_status");
         ("status", JStr (if connect_result u is None then "connected" else "error"))]]
   ∧ post (handle_message websocket u (JSON (JObj d)) s)
     = (if connect_result u is None then started s else s))
  ∧ (dict_get "type" d = Some (JStr "stop_session") →
     events (handle_message websocket u (JSON (JObj d)) s)
     = (if session s is Some h then [EClose h] else [])
       ++ [EWsSend websocket
             [("type", JStr "session_status"); ("status", JStr "disconnected")]]
     ∧ session (post (handle_message websocket u (JSON (JObj d)) s)) = None).
Proof.
  split; intros Htype.
  - unfold handle_message, events, post. unfold_monad. simpl. rewrite Htype. simpl.
    rewrite start_live_session_run.
    destruct (connect_result u); simpl.
    + by destruct (ws_send_run websocket u (session_status "error") s) as (r & ->).
    + by destruct (ws_send_run websocket u (session_status "connected") (started s))
        as (r & ->).
  - unfold handle_message, close_session, events, post. run. rewrite Htype. simpl.
    destruct (session s) as [h|] eqn:Hs; simpl;
      by destruct (ws_send_result u).
Qed.

Lemma X11_witness :
  events (handle_message 7 offline (JSON (JObj [("type", JStr "start_session")]))
            (active 0))
  = [EConnect model config;
     EWsSend 7 [("type", JStr "session_status"); ("status", JStr "error")]]
  ∧ events (handle_message 7 (answering [])
              (JSON (JObj [("type", JStr "stop_session")])) init)
    = [EWsSend 7 [("type", JStr "session_status"); ("status", JStr "disconnected")]].
Proof.
  split.
  - exact (proj1 (proj1 (X11_session_status_replies 7 offline (active 0)
                           [("type", JStr "start_session")]) eq_refl)).
  - exact (proj1 (proj2 (X11_session_status_replies 7 (answering []) init
                           [("type", JStr "stop_session")]) eq_refl)).
Defined.

(** X12: the session is shared by the connections.  After a connection that
    began with a session stored and carried no stop_session message, a
    video_frame message on another connection is sent on a stored session
    without connecting again. *)
Theorem X12_session_shared_across_connections
    (first second : Conn) (path : string) (inbox : Inbox) (s : Sys)
    (u : Env) (d : Dict) (x : JValue) :
  is_Some (session s) →
  Forall (λ step, if step is Yield (message, _)
                  then is_stop_session message = false else True) inbox →
  dict_get "type" d = Some (JStr "video_frame") →
  dict_get "data" d = Some x →
  connects (events (handle_message second u (JSON (JObj d))
                      (post (handle_client first path inbox s)))) = 0.
Proof.
  intros Hsession Hstop Htype Hdata.
  destruct (handle_client_run first path inbox s) as (r & s' & evs & Hloop & ->).
  destruct (receive_loop_shape first inbox (post (add_client first s)))
    as (r0 & s0 & evs0 & Hloop' & _ & _ & _ & Hkeep).
  rewrite Hloop in Hloop'. injection Hloop' as <- <- <-.
  destruct (Hkeep Hstop) as [_ [h Hh]]; [done |].
  unfold post at 1. simpl.
  assert (session (post (discard_client first s')) = Some h) as Hs' by done.
  unfold handle_message, events. unfold_monad. simpl. rewrite Htype, Hdata. simpl.
  pose proof (process_video_frame_calls u _ h x Hs') as Hcalls.
  destruct (process_video_frame_shape u (post (discard_client first s')) x)
    as (d' & evs' & Hrun & _).
  rewrite Hrun in *. unfold events in Hcalls. simpl in Hcalls.
  destruct (ws_send_run second u d'
              (if session (post (discard_client first s')) is Some _
               then post (discard_client first s')
               else post (start_live_session u (post (discard_client first s')))))
    as (r' & ->).
  simpl. rewrite connects_app. simpl.
  destruct Hcalls as [-> | (blob & rs & -> & _)]; [done |].
  unfold connects. simpl. rewrite Nat.add_0_r. apply (connects_recv h rs).
Qed.

Lemma X12_witness :
  connects (events (handle_message 8 (answering [Yield (text_response "clear" true)])
                      (JSON (JObj [("type", JStr "video_frame");
                                   ("data", JStr "QUJD")]))
                      (post (handle_client 7 "/" [Fail reset] (active 0))))) = 0.
Proof.
  apply (X12_session_shared_across_connections 7 8 "/" [Fail reset] (active 0)
           (answering [Yield (text_response "clear" true)])
           [("type", JStr "video_frame"); ("data", JStr "QUJD")] (JStr "QUJD")).
  - by exists 0.
  - repeat constructor.
  - reflexivity.
  - reflexivity.
Defined.

(** X13: a response whose [model_turn] has no list of parts makes the drain
    raise where it stands.  When it arrives before the turn is complete,
    after responses whose parts can be iterated, both media operations
    return the error-typed result with the text of the TypeError as content,
    whatever text and payloads were read before it (the result of
    ProcessAudioChunk has no audio_response), and nothing after that response
    is read. *)
Theorem X13_response_without_parts
    (u : Env) (s : Sys) (h : Handle) (payload_data mime_type : JValue)
    (bs : bytes) (blob : Blob) (rs : list LiveServerMessage)
    (bad : LiveServerMessage) (tail : list (Step LiveServerMessage)) :
  session s = Some h →
  Base64.b64decode payload_data = Ret bs →
  Blob_new u bs mime_type = Ret blob →
  send_result u = None →
  replies u = map Yield rs ++ Yield bad :: tail →
  Forall (λ r, is_turn_complete r = false) rs →
  Forall (λ r, iterable r = true) rs →
  iterable bad = false →
  process_video_frame u payload_data s
  = (Ret [("type", JStr "error");
          ("content", JStr "'NoneType' object is not iterable");
          ("timestamp", JNum (now u))],
     s,
     ESend h (Image (mkBlob bs (Some "image/jpeg"))) :: map (ERecv h) (rs ++ [bad]))
  ∧ process_audio_chunk u payload_data mime_type s
    = (Ret [("type", JStr "error");
            ("content", JStr "'NoneType' object is not iterable");
            ("timestamp", JNum (now u))],
       s, ESend h (Audio blob) :: map (ERecv h) (rs ++ [bad])).
Proof.
  intros Hs Hdecode Hblob Hsend Hreplies Hrs Hit Hbad.
  rewrite (process_video_frame_started u s h), (process_audio_chunk_started u s h),
    Hdecode, Hblob, Hsend, Hreplies by done.
  simpl.
  by rewrite receive_video_raises, receive_audio_raises
    by (done || by apply none_complete).
Qed.

Lemma X13_witness :
  process_audio_chunk
    (answering [Yield (data_response ["A"]%byte);
                Yield (text_response "person " false);
                Yield (bare_response false);
                Yield (text_response "at door" true)])
    (JStr "QUJD") (JStr "audio/webm") (active 0)
  = (Ret [("type", JStr "error");
          ("content", JStr "'NoneType' object is not iterable");
          ("timestamp", JNum 1000)],
     active 0,
     [ESend 0 (Audio (mkBlob ["A"; "B"; "C"]%byte (Some "audio/webm")));
      ERecv 0 (data_response ["A"]%byte);
      ERecv 0 (text_response "person " false);
      ERecv 0 (bare_response false)]).
Proof.
  exact (proj2 (X13_response_without_parts
                  (answering [Yield (data_response ["A"]%byte);
                              Yield (text_response "person " false);
                              Yield (bare_response false);
                              Yield (text_response "at door" true)])
                  (active 0) 0 (JStr "QUJD") (JStr "audio/webm")
                  ["A"; "B"; "C"]%byte
                  (mkBlob ["A"; "B"; "C"]%byte (Some "audio/webm"))
                  [data_response ["A"]%byte; text_response "person " false]
                  (bare_response false) [Yield (text_response "at door" true)]
                  eq_refl eq_refl eq_refl eq_refl eq_refl
                  ltac:(repeat constructor) ltac:(repeat constructor) eq_refl)).
Defined.
